(** * ember_csi.v1_0_0.csi: controller and node services

    A shallow embedding of [src/ember_csi/v1_0_0/csi.py].  Python values
    that may be [None] are [option]s, dictionaries are [gmap]s, protobuf
    maps that the code iterates are association lists in iteration order,
    and a handler runs in the [Outcome] monad: it returns, aborts the RPC
    with a status code ([context.abort]) or lets a Python exception
    escape. *)

From Stdlib Require Import ZArith Ascii.
From stdpp Require Import gmap strings list.

Local Open Scope string_scope.
Local Open Scope list_scope.
Local Open Scope Z_scope.

(** ** Outcomes of a handler *)

(** The members of [grpc.StatusCode] the module uses. *)
Inductive StatusCode : Type :=
| NOT_FOUND
| INVALID_ARGUMENT
| OUT_OF_RANGE.

(** The Python exceptions that can leave a handler uncaught. *)
Inductive PyExc : Type :=
| OSError
| ValueError
| AttributeError (name : string).

Inductive Outcome (A : Type) : Type :=
| Return (a : A)
| Abort (code : StatusCode) (details : string)
| Raise (e : PyExc).

Arguments Return {A} a.
Arguments Abort {A} code details.
Arguments Raise {A} e.

(** Sequencing: an abort or an exception ends the handler. *)
#[global] Instance Outcome_bind : MBind Outcome := fun A B k m =>
  match m with
  | Return a => k a
  | Abort c d => Abort c d
  | Raise e => Raise e
  end.

#[global] Instance Outcome_ret : MRet Outcome := fun A a => Return a.

(** The status code of an aborted call, if it was aborted. *)
Definition abort_code {A : Type} (o : Outcome A) : option StatusCode :=
  match o with
  | Abort c _ => Some c
  | _ => None
  end.

Definition returns {A : Type} (o : Outcome A) : bool :=
  match o with
  | Return _ => true
  | _ => false
  end.

#[global] Instance StatusCode_eq_dec : EqDecision StatusCode.
Proof. solve_decision. Defined.

(** ** Python truthiness *)

(** [if s:] for a value that is a [str] or [None]. *)
Definition truthy_str (o : option string) : bool :=
  match o with
  | Some s => negb (String.eqb s "")
  | None => false
  end.

(** [if d:] for a value that is a [dict] or [None]. *)
Definition truthy_dict (o : option (gmap string string)) : bool :=
  match o with
  | Some d => negb (bool_decide (d = ∅))
  | None => false
  end.

(** [if l:] for a value that is a [list] or [None]. *)
Definition truthy_list {A : Type} (o : option (list A)) : bool :=
  match o with
  | Some (_ :: _) => true
  | _ => false
  end.

(** ** The volume record *)

Record VolumeType : Type := {
  extra_specs : gmap string string
}.

(** Modelled from the spec: the volume record class belongs to the
    persistence collaborator and is not among the sources; its attributes
    are the ones of the data model: [id], [size], [status],
    [source_volid], [snapshot_id], [volume_type_id] and the [extra_specs]
    of the associated type. *)
Record Volume : Type := {
  id : string;
  size : Z;
  status : string;
  source_volid : option string;
  snapshot_id : option string;
  volume_type_id : option string;
  volume_type : VolumeType
}.

(** Attribute access by name on a volume record, for the attributes that
    hold an identifier or [None].  A name the record does not have raises
    [AttributeError], as Python's attribute lookup does. *)
Definition getattr (vol : Volume) (name : string) : Outcome (option string) :=
  if String.eqb name "id" then Return (Some (id vol))
  else if String.eqb name "status" then Return (Some (status vol))
  else if String.eqb name "source_volid" then Return (source_volid vol)
  else if String.eqb name "snapshot_id" then Return (snapshot_id vol)
  else if String.eqb name "volume_type_id" then Return (volume_type_id vol)
  else Raise (AttributeError name).

(** Modelled from the spec: [constants.GB] is not among the sources; the
    fixed gibibyte multiplier. *)
Definition GB : Z := 1024 * 1024 * 1024.

(** ** Wire types ([csi_types]) *)

Record Topology : Type := {
  segments : gmap string string
}.

Inductive VolumeContentSource : Type :=
| VolumeSource (volume_id : string)
| SnapshotSource (snapshot_id : string).

(** [types.Volume], built from the [parameters] dictionary: a keyword
    that was never put in it is [None] here. *)
Record WireVolume : Type := {
  capacity_bytes : Z;
  wire_volume_id : string;
  volume_context : option (gmap string string);
  content_source : option VolumeContentSource;
  accessible_topology : option (list Topology)
}.

Record VolumeCapability : Type := {
  access_mode : string;
  access_type : string
}.

Record Confirmed : Type := {
  confirmed_volume_context : gmap string string;
  confirmed_volume_capabilities : list VolumeCapability;
  confirmed_parameters : list (string * string)
}.

(** [types.ValidateResp(message=...)] or [types.ValidateResp(confirmed=...)]. *)
Inductive ValidateResp : Type :=
| NotConfirmed (message : string)
| IsConfirmed (confirmed : Confirmed).

Record ValidateRequest : Type := {
  req_volume_id : string;
  req_volume_capabilities : list VolumeCapability;
  (** [request.parameters.items()], in iteration order *)
  req_parameters : list (string * string);
  req_volume_context : gmap string string
}.

(** [types.ServiceType]: the plugin capabilities of the protocol. *)
Inductive ServiceType : Type :=
| UNKNOWN
| CONTROLLER_SERVICE
| VOLUME_ACCESSIBILITY_CONSTRAINTS.

#[global] Instance ServiceType_eq_dec : EqDecision ServiceType.
Proof. solve_decision. Defined.

(** [CONF]: the configuration read at construction. *)
Record Config : Type := {
  NODE_TOPOLOGY : option (gmap string string)
}.

(** ** Controller *)

Record Controller : Type := {
  (** the persisted volumes [_get_vol] looks up *)
  volumes : gmap string Volume;
  GRPC_TOPOLOGIES : option (list Topology)
}.

(** Modelled from the spec: [_get_vol] lives in the base class, which is
    not among the sources; the record lookup [get_volume(id) -> Volume |
    absent] of the persistence collaborator. *)
Definition _get_vol (self : Controller) (volume_id : string) : option Volume :=
  volumes self !! volume_id.

(** [src_vol.status not in ('available', 'in-use')] *)
Definition status_clonable (st : string) : bool :=
  String.eqb st "available" || String.eqb st "in-use".

Section Controller.

(** The backend collaborator's [Volume.clone], called with the name, the size and the extra parameters. *)
Variable clone : Volume -> string -> Z -> gmap string string -> Volume.

(** The base class's [_validate_capabilities]: an incompatibility
    message, or [None]. *)
Variable _validate_capabilities : list VolumeCapability -> option string.

Definition _create_from_vol (self : Controller) (vol_id : string)
    (vol_size : Z) (name : string) (params : gmap string string)
  : Outcome Volume :=
  match _get_vol self vol_id with
  | None => Abort NOT_FOUND ("Volume " +:+ vol_id +:+ " does not exist")
  | Some src_vol =>
      if negb (status_clonable (status src_vol)) then
        Abort INVALID_ARGUMENT ("Volume " +:+ vol_id +:+ " is not available")
      else if bool_decide (size src_vol > vol_size) then
        Abort OUT_OF_RANGE
          ("Volume " +:+ vol_id +:+ " is bigger than requested volume")
      else Return (clone src_vol name vol_size params)
  end.

Definition _convert_volume_type (self : Controller) (vol : Volume)
  : Outcome WireVolume :=
  let specs :=
    if truthy_str (volume_type_id vol)
    then Some (extra_specs (volume_type vol)) else None in
  src ← getattr vol "source_volid";
  source ←
    (if truthy_str src then
       v ← getattr vol "source_vol_id";
       Return (Some (VolumeSource (default "" v)))
     else
       snap ← getattr vol "snapshot_id";
       Return (if truthy_str snap
               then Some (SnapshotSource (default "" snap)) else None));
  Return {| capacity_bytes := size vol * GB;
            wire_volume_id := id vol;
            volume_context := specs;
            content_source := source;
            accessible_topology :=
              if truthy_list (GRPC_TOPOLOGIES self)
              then GRPC_TOPOLOGIES self else None |}.

(** The loop over [request.parameters.items()]: the message for the
    first key whose value differs from [volume_context.get(k)], where a
    missing key gives [None], which no string equals. *)
Fixpoint check_parameters (items : list (string * string))
    (context : gmap string string) : option string :=
  match items with
  | [] => None
  | (k, v) :: rest =>
      if bool_decide (context !! k = Some v)
      then check_parameters rest context
      else Some ("Parameter " +:+ k +:+ " does not match")
  end.

Definition ValidateVolumeCapabilities (self : Controller)
    (request : ValidateRequest) : Outcome ValidateResp :=
  match _get_vol self (req_volume_id request) with
  | None =>
      Abort NOT_FOUND
        ("Volume " +:+ req_volume_id request +:+ " does not exist")
  | Some vol =>
      let message := _validate_capabilities (req_volume_capabilities request) in
      if truthy_str message then Return (NotConfirmed (default "" message))
      else
        match check_parameters (req_parameters request)
                (req_volume_context request) with
        | Some message => Return (NotConfirmed message)
        | None =>
            Return (IsConfirmed
              {| confirmed_volume_context := req_volume_context request;
                 confirmed_volume_capabilities := req_volume_capabilities request;
                 confirmed_parameters := req_parameters request |})
        end
  end.

End Controller.

(** Modelled from the spec: [_init_topology] lives in the base class
    [TopologyBase], which is not among the sources.  At construction, if
    topology segments are configured, the constraint capability is
    registered unless it is already present and the advertised segment
    set is built; otherwise the instance advertises no topology. *)
Definition _init_topology (CONF : Config) (constraint_type : ServiceType)
    (PLUGIN_CAPABILITIES : list ServiceType)
  : list ServiceType * option (list Topology) :=
  if truthy_dict (NODE_TOPOLOGY CONF) then
    (if bool_decide (constraint_type ∈ PLUGIN_CAPABILITIES)
     then PLUGIN_CAPABILITIES
     else (PLUGIN_CAPABILITIES ++ [constraint_type])%list,
     Some [ {| segments := default ∅ (NODE_TOPOLOGY CONF) |} ])
  else (PLUGIN_CAPABILITIES, None).

(** [Controller.__init__]: the shared capability list is threaded through,
    the instance comes with the persisted volumes it will look up. *)
Definition Controller_init (CONF : Config)
    (PLUGIN_CAPABILITIES : list ServiceType) (persisted : gmap string Volume)
  : list ServiceType * Controller :=
  let '(caps, topologies) :=
    _init_topology CONF VOLUME_ACCESSIBILITY_CONSTRAINTS PLUGIN_CAPABILITIES in
  (caps, {| volumes := persisted; GRPC_TOPOLOGIES := topologies |}).

(** ** Node *)

Record NodeInfoResp : Type := {
  info_node_id : option string;
  info_accessible_topology : option Topology
}.

Record Node : Type := {
  (** the instance attribute, or the class attribute [None] *)
  self_NODE_TOPOLOGY : option Topology;
  node_info_resp : NodeInfoResp
}.

(** [Node.__init__].  [PLUGIN_CAPABILITIES] is a list shared by every
    instance, mutated in place by [append]: it is passed in and the
    updated list is passed out. *)
Definition Node_init (CONF : Config) (PLUGIN_CAPABILITIES : list ServiceType)
    (node_id : option string) : list ServiceType * Node :=
  let topo_capab := VOLUME_ACCESSIBILITY_CONSTRAINTS in
  let '(caps, topology) :=
    if truthy_dict (NODE_TOPOLOGY CONF) then
      (if bool_decide (topo_capab ∈ PLUGIN_CAPABILITIES)
       then PLUGIN_CAPABILITIES
       else (PLUGIN_CAPABILITIES ++ [topo_capab])%list,
       Some {| segments := default ∅ (NODE_TOPOLOGY CONF) |})
    else (PLUGIN_CAPABILITIES, None) in
  (caps,
   {| self_NODE_TOPOLOGY := topology;
      node_info_resp :=
        {| info_node_id := node_id;
           info_accessible_topology :=
             match topology with
             | Some t => Some t
             | None => None
             end |} |}).

Definition NodeGetInfo (self : Node) : NodeInfoResp := node_info_resp self.

(** One [Node] per identifier of the list, built one after the other on
    the shared capability list. *)
Fixpoint Node_constructions (CONF : Config)
    (PLUGIN_CAPABILITIES : list ServiceType) (node_ids : list (option string))
  : list ServiceType :=
  match node_ids with
  | [] => PLUGIN_CAPABILITIES
  | node_id :: rest =>
      Node_constructions CONF (Node_init CONF PLUGIN_CAPABILITIES node_id).1 rest
  end.

(** The fields of [os.statvfs] the handler reads. *)
Record StatVFS : Type := {
  f_frsize : Z;
  f_blocks : Z;
  f_bavail : Z
}.

(** The host as the handler sees it.  [os.stat] gives the mode of the
    path, [inr], or raises, [inl]: [OSError] for a path that is missing or
    may not be accessed, [ValueError] for a path with a null character in
    it.  For the other two calls [None] stands for the call raising
    [OSError] (which [IOError] is an alias of). *)
Record Host : Type := {
  os_stat : string -> PyExc + Z;
  os_statvfs : string -> option StatVFS;
  read_file : string -> option string
}.

(** [stat.S_ISDIR]: the file-type bits of the mode, [st_mode & 0o170000],
    are those of a directory, [0o040000]. *)
Definition S_ISDIR (st_mode : Z) : bool :=
  Z.eqb (Z.land st_mode 0xF000) 0x4000.

(** [os.path.basename]: what follows the last slash. *)
Fixpoint basename_from (acc p : string) : string :=
  match p with
  | EmptyString => acc
  | String c rest =>
      if Ascii.eqb c "/"%char then basename_from "" rest
      else basename_from (acc +:+ String c "") rest
  end.

Definition basename (p : string) : string := basename_from "" p.

Definition startswith_sep (p : string) : bool :=
  match p with
  | String c _ => Ascii.eqb c "/"%char
  | EmptyString => false
  end.

Fixpoint endswith_sep (p : string) : bool :=
  match p with
  | EmptyString => false
  | String c EmptyString => Ascii.eqb c "/"%char
  | String _ rest => endswith_sep rest
  end.

(** One step of [os.path.join]: an absolute component replaces the path,
    another is appended after a separator unless one is there already. *)
Definition path_join (path b : string) : string :=
  if startswith_sep b then b
  else if String.eqb path "" || endswith_sep path then path +:+ b
  else path +:+ "/" +:+ b.

Inductive UsageUnit : Type :=
| UNKNOWN_UNIT
| BYTES
| INODES.

(** [types.VolumeUsage]: [used] and [available] may be passed [None]. *)
Record VolumeUsage : Type := {
  unit : UsageUnit;
  total : Z;
  used : option Z;
  available : option Z
}.

Record VolumeStatsResp : Type := {
  usage : list VolumeUsage
}.

Record StatsRequest : Type := {
  stats_volume_id : string;
  volume_path : string
}.

(** A call that raises [exc] when it fails. *)
Definition or_raise {A : Type} (exc : PyExc) (o : option A) : Outcome A :=
  match o with
  | Some a => Return a
  | None => Raise exc
  end.

Section Node.

Variable host : Host.

(** The base class's [_get_device]: the device bound at a path, or [None]. *)
Variable _get_device : string -> option string.

(** The base class's [_get_vol_device]: the device bound for a volume id
    and the private bind path, either of which may be [None]. *)
Variable _get_vol_device : string -> option string * option string.

(** The builtin [int] on the text of a file; [None] when it raises
    [ValueError]. *)
Variable py_int : string -> option Z.

Definition NodeGetVolumeStats (request : StatsRequest)
  : Outcome VolumeStatsResp :=
  let path := volume_path request in
  st_mode ←
    match os_stat host path with
    | inr st_mode => Return st_mode
    | inl OSError => Abort NOT_FOUND ("Cannot access path " +:+ path)
    | inl exc => Raise exc
    end;
  let device_for_path := _get_device path in
  let '(device_for_vol, private_bind) :=
    _get_vol_device (stats_volume_id request) in
  if negb (truthy_str device_for_vol)
     || negb (bool_decide (device_for_path = private_bind))
  then Abort NOT_FOUND "Path does not match with requested volume"
  else
    '(size, used, available) ←
      (if S_ISDIR st_mode then
         stats ← or_raise OSError (os_statvfs host path);
         let size := f_frsize stats * f_blocks stats in
         let available := f_frsize stats * f_bavail stats in
         let used := size - available in
         Return (size, Some used, Some available)
       else
         let size_name :=
           path_join
             (path_join "/sys/class/block"
                (basename (default "" device_for_vol)))
             "size" in
         text ← or_raise OSError (read_file host size_name);
         blocks ← or_raise ValueError (py_int text);
         let size := 512 * blocks in
         Return (size, None, None));
    Return {| usage := [ {| unit := BYTES;
                            total := size;
                            used := used;
                            available := available |} ] |}.

(** The path and device checks of [NodeGetVolumeStats] pass: the path can
    be accessed, the volume has a device, and the device of the path is
    what is recorded at the volume's private bind path. *)
Definition checks_pass (request : StatsRequest) (st_mode : Z)
    (device_for_vol : string) : Prop :=
  os_stat host (volume_path request) = inr st_mode
  ∧ device_for_vol ≠ ""
  ∧ _get_vol_device (stats_volume_id request)
    = (Some device_for_vol, _get_device (volume_path request)).

End Node.

(** ** Recorded context, agreement of parameters, capability counts *)

(** How many times a capability is advertised. *)
Definition occurrences (x : ServiceType) (l : list ServiceType) : nat :=
  length (filter (eq x) l).

(** The context recorded for a volume: the extra specs of its type, as
    [_convert_volume_type] reports them in [volume_context]. *)
Definition recorded_context (vol : Volume) : option (gmap string string) :=
  if truthy_str (volume_type_id vol)
  then Some (extra_specs (volume_type vol)) else None.

(** The message of a not-confirmed response that names key [k]. *)
Definition mismatch_message (k : string) : string :=
  "Parameter " +:+ k +:+ " does not match".

(** A parameter agrees with a context when the context has its value. *)
Definition agrees (context : gmap string string) (kv : string * string) : Prop :=
  context !! kv.1 = Some kv.2.

(** ** Sample data, to run the handlers on *)

Module Sample.

Definition vol_A : Volume :=
  {| id := "A"; size := 10; status := "available";
     source_volid := None; snapshot_id := None;
     volume_type_id := Some "gold";
     volume_type := {| extra_specs := {[ "pool" := "ssd" ]} |} |}.

Definition vol_D : Volume :=
  {| id := "D"; size := 10; status := "deleting";
     source_volid := None; snapshot_id := None;
     volume_type_id := None;
     volume_type := {| extra_specs := ∅ |} |}.

(** A backend whose clone has the requested size, is named after the
    request and points back to its source. *)
Definition backend_clone (src : Volume) (name : string) (vol_size : Z)
    (params : gmap string string) : Volume :=
  {| id := name; size := vol_size; status := "available";
     source_volid := Some (id src); snapshot_id := None;
     volume_type_id := volume_type_id src;
     volume_type := volume_type src |}.

Definition vol_B : Volume := backend_clone vol_A "B" 10 ∅.

Definition vol_S : Volume :=
  {| id := "S"; size := 10; status := "available";
     source_volid := None; snapshot_id := Some "snap-1";
     volume_type_id := None;
     volume_type := {| extra_specs := ∅ |} |}.

Definition ctrl : Controller :=
  {| volumes := {[ "A" := vol_A; "D" := vol_D; "B" := vol_B ]};
     GRPC_TOPOLOGIES := None |}.

(** A capability check that finds nothing to object to. *)
Definition accept_all (caps : list VolumeCapability) : option string := None.

Definition rw_mount : VolumeCapability :=
  {| access_mode := "SINGLE_NODE_WRITER"; access_type := "mount" |}.

(** The caller echoes parameters and context that agree with each other
    but not with what volume A has recorded. *)
Definition req_hdd : ValidateRequest :=
  {| req_volume_id := "A";
     req_volume_capabilities := [rw_mount];
     req_parameters := [("pool", "hdd")];
     req_volume_context := {[ "pool" := "hdd" ]} |}.

(** Key [a] differs, key [b] is missing from the context. *)
Definition req_two_keys : ValidateRequest :=
  {| req_volume_id := "A";
     req_volume_capabilities := [rw_mount];
     req_parameters := [("a", "1"); ("b", "2")];
     req_volume_context := {[ "a" := "0" ]} |}.

(** Key [pool] agrees, key [tier] is missing from the context. *)
Definition req_missing_tier : ValidateRequest :=
  {| req_volume_id := "A";
     req_volume_capabilities := [rw_mount];
     req_parameters := [("pool", "ssd"); ("tier", "1")];
     req_volume_context := {[ "pool" := "ssd" ]} |}.

(** A reading of [int] for sample texts: decimal digits, then at most one
    newline. *)
Fixpoint decimal_from (acc : Z) (text : string) : option Z :=
  match text with
  | EmptyString => Some acc
  | String c rest =>
      let n := Z.of_N (N_of_ascii c) in
      if (48 <=? n)%Z && (n <=? 57)%Z then decimal_from (10 * acc + (n - 48)) rest
      else if Ascii.eqb c "010"%char && String.eqb rest "" then Some acc
      else None
  end.

Definition sample_int (text : string) : option Z :=
  match text with
  | EmptyString => None
  | _ => decimal_from 0 text
  end.

(** A host with a mounted volume at [/mnt/data], two raw volumes at
    [/mnt/raw] and [/mnt/raw3], and no size attribute for [sdc]. *)
Definition host : Host :=
  {| os_stat := fun p =>
       if String.eqb p "/mnt/data" then inr 0x41ED
       else if String.eqb p "/mnt/raw" then inr 0x61B0
       else if String.eqb p "/mnt/raw3" then inr 0x61B0
       else inl OSError;
     os_statvfs := fun p =>
       if String.eqb p "/mnt/data"
       then Some {| f_frsize := 4096; f_blocks := 262144; f_bavail := 200000 |}
       else None;
     read_file := fun p =>
       if String.eqb p "/sys/class/block/sdb/size"
       then Some ("2097152" +:+ String "010"%char "")
       else None |}.

Definition get_device (path : string) : option string :=
  if String.eqb path "/mnt/data" then Some "/binds/vol-1"
  else if String.eqb path "/mnt/raw" then Some "/binds/vol-2"
  else if String.eqb path "/mnt/raw3" then Some "/binds/vol-3"
  else None.

Definition get_vol_device (volume_id : string) : option string * option string :=
  if String.eqb volume_id "vol-1" then (Some "/dev/sda", Some "/binds/vol-1")
  else if String.eqb volume_id "vol-2" then (Some "/dev/sdb", Some "/binds/vol-2")
  else if String.eqb volume_id "vol-3" then (Some "/dev/sdc", Some "/binds/vol-3")
  else (None, None).

Definition conf_rack : Config := {| NODE_TOPOLOGY := Some {[ "rack" := "r1" ]} |}.

Definition conf_plain : Config := {| NODE_TOPOLOGY := None |}.

End Sample.

(** ** Creating a volume from a request *)

(** The fields of a create request that [_create_volume] reads.  The
    content source is [None] when the request has no such field, and
    [Some None] when the field is there with neither a snapshot nor a
    volume in it. *)
Record CreateVolumeRequest : Type := {
  create_name : string;
  create_content_source : option (option VolumeContentSource)
}.

Section CreateVolume.

Variable clone : Volume -> string -> Z -> gmap string string -> Volume.

(** The base class's [_create_volume], called with the name, the size,
    the request and the extra parameters. *)
Variable base_create_volume :
  string -> Z -> CreateVolumeRequest -> gmap string string -> Outcome Volume.

(** The base class's [_create_from_snap], called with the snapshot id, the
    size, the name and the extra parameters. *)
Variable _create_from_snap :
  string -> Z -> string -> gmap string string -> Outcome Volume.

Definition _create_volume (self : Controller) (name : string) (vol_size : Z)
    (request : CreateVolumeRequest) (params : gmap string string)
  : Outcome Volume :=
  match create_content_source request with
  | None => base_create_volume name vol_size request params
  | Some source =>
      match source with
      | Some (SnapshotSource snapshot_id) =>
          _create_from_snap snapshot_id vol_size (create_name request) params
      | Some (VolumeSource volume_id) =>
          _create_from_vol clone self volume_id vol_size
            (create_name request) params
      | None =>
          (* an unset [source.volume] reads as the empty volume id *)
          _create_from_vol clone self "" vol_size (create_name request) params
      end
  end.

End CreateVolume.

(** ** Converting a snapshot to the wire *)

(** A [datetime]: the date and time it shows, counted in microseconds
    from 1970-01-01 00:00:00, and its time zone, an offset in minutes, if
    it has one. *)
Record datetime : Type := {
  wall_clock : Z;
  tzinfo : option Z
}.

(** [dt.replace(tzinfo=...)]: the date and time shown stay as they are. *)
Definition replace_tzinfo (dt : datetime) (tz : option Z) : datetime :=
  {| wall_clock := wall_clock dt; tzinfo := tz |}.

Record Timestamp : Type := {
  seconds : Z;
  nanos : Z
}.

(** [Timestamp.FromDatetime] on a datetime without time zone, the only
    kind the module passes to it: the time shown is counted from the
    epoch, whole seconds and the microseconds left as nanoseconds. *)
Definition FromDatetime (dt : datetime) : Timestamp :=
  {| seconds := wall_clock dt `div` 1000000;
     nanos := (wall_clock dt `mod` 1000000) * 1000 |}.

Record Snapshot : Type := {
  snap_id : string;
  snap_volume_id : string;
  created_at : datetime
}.

Record WireSnapshot : Type := {
  wire_snapshot_id : string;
  source_volume_id : string;
  creation_time : Timestamp;
  ready_to_use : bool
}.

Definition _convert_snapshot_type (snap : Snapshot) : WireSnapshot :=
  let created_at := replace_tzinfo (created_at snap) None in
  let creation_time := FromDatetime created_at in
  {| wire_snapshot_id := snap_id snap;
     source_volume_id := snap_volume_id snap;
     creation_time := creation_time;
     ready_to_use := true |}.

(** ** Path components *)

(** The text has a slash in it. *)
Fixpoint has_sep (p : string) : bool :=
  match p with
  | EmptyString => false
  | String c rest => Ascii.eqb c "/"%char || has_sep rest
  end.

(** The file the block branch of [NodeGetVolumeStats] reads for a device. *)
Definition size_attribute (device_for_vol : string) : string :=
  path_join (path_join "/sys/class/block" (basename device_for_vol)) "size".

(** ** More sample data *)

Module Sample2.

(** A base create path that makes a fresh volume of the requested name
    and size. *)
Definition base_create (name : string) (vol_size : Z)
    (request : CreateVolumeRequest) (params : gmap string string)
  : Outcome Volume :=
  Return {| id := name; size := vol_size; status := "available";
            source_volid := None; snapshot_id := None;
            volume_type_id := None;
            volume_type := {| extra_specs := ∅ |} |}.

(** A snapshot path that knows one snapshot, of volume A. *)
Definition create_from_snap (snapshot_id : string) (vol_size : Z)
    (name : string) (params : gmap string string) : Outcome Volume :=
  if String.eqb snapshot_id "snap-1"
  then Return {| id := name; size := vol_size; status := "available";
                 source_volid := None; snapshot_id := Some snapshot_id;
                 volume_type_id := None;
                 volume_type := {| extra_specs := ∅ |} |}
  else Abort NOT_FOUND ("Snapshot " +:+ snapshot_id +:+ " does not exist").

Definition req_clone_A : CreateVolumeRequest :=
  {| create_name := "B"; create_content_source := Some (Some (VolumeSource "A")) |}.

Definition req_empty_source : CreateVolumeRequest :=
  {| create_name := "B"; create_content_source := Some None |}.

Definition ctrl_rack : Controller :=
  {| volumes := ∅;
     GRPC_TOPOLOGIES := Some [ {| segments := {[ "rack" := "r1" ]} |} ] |}.

(** Taken at 2019-01-01 12:00:00.250000, shown with an offset of two hours. *)
Definition snap_1 : Snapshot :=
  {| snap_id := "snap-1"; snap_volume_id := "A";
     created_at := {| wall_clock := 1546344000250000; tzinfo := Some 120 |} |}.

(** The caller sends the parameters of [Sample.req_two_keys] in the other
    order. *)
Definition req_two_keys_swapped : ValidateRequest :=
  {| req_volume_id := "A";
     req_volume_capabilities := [Sample.rw_mount];
     req_parameters := [("b", "2"); ("a", "1")];
     req_volume_context := {[ "a" := "0" ]} |}.

(** A host like [Sample.host] where the size attribute of [sdb] holds no
    number and the statistics of [/mnt/data] cannot be read. *)
Definition host_broken : Host :=
  {| os_stat := os_stat Sample.host;
     os_statvfs := fun _ => None;
     read_file := fun p =>
       if String.eqb p "/sys/class/block/sdb/size" then Some "unknown"
       else None |}.

(** A node where [/mnt/x] is bound to [/dev/sdd], which is also the device
    of volume vol-4, while the private bind path of vol-4 is
    [/binds/vol-4]. *)
Definition host_x : Host :=
  {| os_stat := fun p =>
       if String.eqb p "/mnt/x" then inr 0x41ED else os_stat Sample.host p;
     os_statvfs := os_statvfs Sample.host;
     read_file := read_file Sample.host |}.

Definition get_device_x (path : string) : option string :=
  if String.eqb path "/mnt/x" then Some "/dev/sdd"
  else Sample.get_device path.

Definition get_vol_device_x (volume_id : string)
  : option string * option string :=
  if String.eqb volume_id "vol-4" then (Some "/dev/sdd", Some "/binds/vol-4")
  else Sample.get_vol_device volume_id.

(** A host on which the path of the request has a null character in it:
    [os.stat] raises [ValueError]. *)
Definition host_nul : Host :=
  {| os_stat := fun _ => inl ValueError;
     os_statvfs := fun _ => None;
     read_file := fun _ => None |}.

End Sample2.

(** * Properties *)

(** ** Outcomes *)

Lemma returns_Return {A : Type} (o : Outcome A) :
  returns o = true ↔ ∃ a, o = Return a.
Proof.
  destruct o as [a|c d|e]; simpl; split; try discriminate; eauto.
  - intros [a' Ha]. discriminate Ha.
  - intros [a' Ha]. discriminate Ha.
Qed.

Lemma status_clonable_spec (st : string) :
  status_clonable st = true ↔ st = "available" ∨ st = "in-use".
Proof.
  unfold status_clonable. rewrite orb_true_iff.
  rewrite !String.eqb_eq. reflexivity.
Qed.

(** ** Cloning from a volume *)

Section CreateFromVol.

Variable clone : Volume -> string -> Z -> gmap string string -> Volume.
Variables (self : Controller) (vol_id name : string) (vol_size : Z).
Variable params : gmap string string.

Let result := _create_from_vol clone self vol_id vol_size name params.

Lemma create_from_vol_missing :
  _get_vol self vol_id = None →
  result = Abort NOT_FOUND ("Volume " +:+ vol_id +:+ " does not exist").
Proof. unfold result, _create_from_vol. intros ->. reflexivity. Qed.

Lemma create_from_vol_bad_status (src_vol : Volume) :
  _get_vol self vol_id = Some src_vol →
  status_clonable (status src_vol) = false →
  result = Abort INVALID_ARGUMENT ("Volume " +:+ vol_id +:+ " is not available").
Proof. unfold result, _create_from_vol. intros -> ->. reflexivity. Qed.

Lemma create_from_vol_too_big (src_vol : Volume) :
  _get_vol self vol_id = Some src_vol →
  status_clonable (status src_vol) = true →
  size src_vol > vol_size →
  result = Abort OUT_OF_RANGE
             ("Volume " +:+ vol_id +:+ " is bigger than requested volume").
Proof.
  unfold result, _create_from_vol. intros -> -> Hbig. simpl.
  rewrite bool_decide_eq_true_2 by exact Hbig. reflexivity.
Qed.

Lemma create_from_vol_clones (src_vol : Volume) :
  _get_vol self vol_id = Some src_vol →
  status_clonable (status src_vol) = true →
  size src_vol ≤ vol_size →
  result = Return (clone src_vol name vol_size params).
Proof.
  unfold result, _create_from_vol. intros -> -> Hfit. simpl.
  rewrite bool_decide_eq_false_2 by lia. reflexivity.
Qed.

End CreateFromVol.

(** C1 (as amended).  A clone request for a volume id that does not exist
    aborts with NOT_FOUND.  When the source exists, the clone is returned
    iff the source's status is 'available' or 'in-use' and its size is at
    most the requested size; the call aborts with INVALID_ARGUMENT exactly
    when the status condition is violated, and with OUT_OF_RANGE exactly
    when the status condition holds and the size condition is violated. *)
Theorem create_from_vol_outcome
    (clone : Volume -> string -> Z -> gmap string string -> Volume)
    (self : Controller) (vol_id name : string) (vol_size : Z)
    (params : gmap string string) :
  let result := _create_from_vol clone self vol_id vol_size name params in
  match _get_vol self vol_id with
  | None => abort_code result = Some NOT_FOUND
  | Some src_vol =>
      let status_ok :=
        status src_vol = "available" ∨ status src_vol = "in-use" in
      (returns result = true ↔ status_ok ∧ size src_vol ≤ vol_size)
      ∧ (abort_code result = Some INVALID_ARGUMENT ↔ ¬ status_ok)
      ∧ (abort_code result = Some OUT_OF_RANGE
         ↔ status_ok ∧ ¬ size src_vol ≤ vol_size)
      ∧ (returns result = true →
         result = Return (clone src_vol name vol_size params))
  end.
Proof.
  intros result.
  destruct (_get_vol self vol_id) as [src_vol|] eqn:Hget.
  - intros status_ok. subst status_ok.
    rewrite <- status_clonable_spec.
    destruct (status_clonable (status src_vol)) eqn:Hst.
    + destruct (decide (size src_vol ≤ vol_size)) as [Hfit|Hbig].
      * subst result.
        rewrite (create_from_vol_clones clone self vol_id name vol_size params
                   src_vol Hget Hst Hfit).
        simpl. split_and!; intuition (discriminate || lia).
      * subst result.
        rewrite (create_from_vol_too_big clone self vol_id name vol_size params
                   src_vol Hget Hst) by lia.
        simpl. split_and!; intuition (discriminate || lia).
    + subst result.
      rewrite (create_from_vol_bad_status clone self vol_id name vol_size params
                 src_vol Hget Hst).
      simpl. split_and!; intuition (discriminate || lia).
  - subst result.
    rewrite (create_from_vol_missing clone self vol_id name vol_size params Hget).
    reflexivity.
Qed.

(** C1 as stated fails: volume D is being deleted and is bigger than the
    requested size, so the size condition is violated, yet the call does
    not abort with OUT_OF_RANGE: the status is checked first. *)
Lemma create_from_vol_both_violated :
  _get_vol Sample.ctrl "D" = Some Sample.vol_D
  ∧ ¬ size Sample.vol_D ≤ 5
  ∧ abort_code (_create_from_vol Sample.backend_clone Sample.ctrl "D" 5 "B" ∅)
    ≠ Some OUT_OF_RANGE
  ∧ _create_from_vol Sample.backend_clone Sample.ctrl "D" 5 "B" ∅
    = Abort INVALID_ARGUMENT "Volume D is not available".
Proof.
  split; [vm_compute; reflexivity|].
  split; [simpl; lia|].
  split; [vm_compute; intros H; discriminate H|].
  vm_compute; reflexivity.
Qed.

(** ** Validating capabilities and parameters *)

Lemma check_parameters_app (pre post : list (string * string))
    (context : gmap string string) :
  check_parameters (pre ++ post) context
  = match check_parameters pre context with
    | Some message => Some message
    | None => check_parameters post context
    end.
Proof.
  induction pre as [|[k v] pre IH]; simpl; [reflexivity|].
  case_bool_decide; [exact IH|reflexivity].
Qed.

Lemma check_parameters_agree (items : list (string * string))
    (context : gmap string string) :
  check_parameters items context = None ↔ Forall (agrees context) items.
Proof.
  induction items as [|[k v] items IH]; simpl.
  - split; [constructor|reflexivity].
  - rewrite Forall_cons. unfold agrees at 1. simpl.
    case_bool_decide as Hk.
    + rewrite IH. tauto.
    + split; [discriminate|tauto].
Qed.

(** The loop stops at the first parameter that does not agree. *)
Lemma check_parameters_first (pre post : list (string * string))
    (k v : string) (context : gmap string string) :
  Forall (agrees context) pre →
  context !! k ≠ Some v →
  check_parameters (pre ++ (k, v) :: post) context = Some (mismatch_message k).
Proof.
  intros Hpre Hk. rewrite check_parameters_app.
  apply check_parameters_agree in Hpre. rewrite Hpre. simpl.
  rewrite bool_decide_eq_false_2 by exact Hk. reflexivity.
Qed.

(** A message of the loop names a parameter that does not agree, and
    every parameter before it agrees. *)
Lemma check_parameters_message (items : list (string * string))
    (context : gmap string string) (message : string) :
  check_parameters items context = Some message →
  ∃ pre k v post,
    items = pre ++ (k, v) :: post
    ∧ Forall (agrees context) pre
    ∧ context !! k ≠ Some v
    ∧ message = mismatch_message k.
Proof.
  induction items as [|[k v] items IH]; simpl; [discriminate|].
  case_bool_decide as Hk.
  - intros Hrest. destruct (IH Hrest) as (pre & k' & v' & post & -> & Hpre & Hk' & ->).
    exists ((k, v) :: pre), k', v', post. split_and!; try done.
    constructor; [exact Hk|exact Hpre].
  - intros [= <-]. exists [], k, v, items. split_and!; try done.
Qed.

Lemma check_parameters_disagree (items : list (string * string))
    (context : gmap string string) (k v : string) :
  (k, v) ∈ items →
  context !! k ≠ Some v →
  is_Some (check_parameters items context).
Proof.
  intros Hin Hk.
  destruct (check_parameters items context) as [m|] eqn:Hc; [eauto|].
  apply check_parameters_agree in Hc.
  rewrite Forall_forall in Hc. specialize (Hc _ Hin). contradiction.
Qed.

(** Once the volume exists and the capability check has nothing to say,
    the response is decided by the loop over the parameters. *)
Lemma ValidateVolumeCapabilities_parameters
    (validate : list VolumeCapability -> option string)
    (self : Controller) (request : ValidateRequest) (vol : Volume) :
  _get_vol self (req_volume_id request) = Some vol →
  truthy_str (validate (req_volume_capabilities request)) = false →
  ValidateVolumeCapabilities validate self request
  = match check_parameters (req_parameters request)
            (req_volume_context request) with
    | Some message => Return (NotConfirmed message)
    | None =>
        Return (IsConfirmed
          {| confirmed_volume_context := req_volume_context request;
             confirmed_volume_capabilities := req_volume_capabilities request;
             confirmed_parameters := req_parameters request |})
    end.
Proof. unfold ValidateVolumeCapabilities. intros -> ->. reflexivity. Qed.

(** C2 (as amended).  When the volume exists and the capability check
    passes, each parameter's value is compared against the same key in the
    volume context supplied with the request; at the first parameter that
    does not agree the handler returns a not-confirmed response, not an
    error, whose message names that key. *)
Theorem ValidateVolumeCapabilities_first_mismatch
    (validate : list VolumeCapability -> option string)
    (self : Controller) (request : ValidateRequest) (vol : Volume)
    (pre post : list (string * string)) (k v : string) :
  _get_vol self (req_volume_id request) = Some vol →
  truthy_str (validate (req_volume_capabilities request)) = false →
  req_parameters request = pre ++ (k, v) :: post →
  Forall (agrees (req_volume_context request)) pre →
  req_volume_context request !! k ≠ Some v →
  ValidateVolumeCapabilities validate self request
  = Return (NotConfirmed ("Parameter " +:+ k +:+ " does not match")).
Proof.
  intros Hget Hcaps Hitems Hpre Hk.
  rewrite (ValidateVolumeCapabilities_parameters _ _ _ _ Hget Hcaps).
  rewrite Hitems, (check_parameters_first _ _ _ _ _ Hpre Hk). reflexivity.
Qed.

Lemma ValidateVolumeCapabilities_first_mismatch_witness :
  ValidateVolumeCapabilities Sample.accept_all Sample.ctrl Sample.req_two_keys
  = Return (NotConfirmed "Parameter a does not match").
Proof.
  apply (ValidateVolumeCapabilities_first_mismatch
           Sample.accept_all Sample.ctrl Sample.req_two_keys Sample.vol_A
           [] [("b", "2")] "a" "1").
  - vm_compute. reflexivity.
  - reflexivity.
  - reflexivity.
  - constructor.
  - vm_compute. intros H. discriminate H.
Defined.

(** C2 as stated fails: volume A has recorded pool [ssd]; the caller asks
    for pool [hdd] and sends a context that says [hdd] too.  The parameter
    does not match the recorded context, yet the response is a
    confirmation: the recorded context is never consulted. *)
Lemma validate_ignores_recorded_context :
  _get_vol Sample.ctrl (req_volume_id Sample.req_hdd) = Some Sample.vol_A
  ∧ truthy_str (Sample.accept_all (req_volume_capabilities Sample.req_hdd)) = false
  ∧ req_parameters Sample.req_hdd = [("pool", "hdd")]
  ∧ recorded_context Sample.vol_A = Some {[ "pool" := "ssd" ]}
  ∧ ValidateVolumeCapabilities Sample.accept_all Sample.ctrl Sample.req_hdd
    ≠ Return (NotConfirmed "Parameter pool does not match")
  ∧ ValidateVolumeCapabilities Sample.accept_all Sample.ctrl Sample.req_hdd
    = Return (IsConfirmed
        {| confirmed_volume_context := req_volume_context Sample.req_hdd;
           confirmed_volume_capabilities := [Sample.rw_mount];
           confirmed_parameters := [("pool", "hdd")] |}).
Proof.
  split_and!; try (vm_compute; reflexivity).
  vm_compute. intros H. discriminate H.
Qed.

(** C10 (as amended).  When the volume exists and the capability check
    passes, a parameter key that is absent from the volume context of the
    request makes the handler return a not-confirmed response, never an
    error status and never a confirmation; the message names the first
    parameter, in iteration order, that does not agree with the context,
    which is the absent key when every parameter before it agrees. *)
Theorem ValidateVolumeCapabilities_absent_key
    (validate : list VolumeCapability -> option string)
    (self : Controller) (request : ValidateRequest) (vol : Volume)
    (pre post : list (string * string)) (k v : string) :
  _get_vol self (req_volume_id request) = Some vol →
  truthy_str (validate (req_volume_capabilities request)) = false →
  req_parameters request = pre ++ (k, v) :: post →
  req_volume_context request !! k = None →
  (∃ before k' v' after,
     req_parameters request = before ++ (k', v') :: after
     ∧ Forall (agrees (req_volume_context request)) before
     ∧ req_volume_context request !! k' ≠ Some v'
     ∧ ValidateVolumeCapabilities validate self request
       = Return (NotConfirmed ("Parameter " +:+ k' +:+ " does not match")))
  ∧ (Forall (agrees (req_volume_context request)) pre →
     ValidateVolumeCapabilities validate self request
     = Return (NotConfirmed ("Parameter " +:+ k +:+ " does not match"))).
Proof.
  intros Hget Hcaps Hitems Hk.
  rewrite (ValidateVolumeCapabilities_parameters _ _ _ _ Hget Hcaps).
  assert (Hne : req_volume_context request !! k ≠ Some v) by (rewrite Hk; discriminate).
  split.
  - destruct (check_parameters_disagree (req_parameters request)
                (req_volume_context request) k v) as [m Hm]; [|exact Hne|].
    { rewrite Hitems. apply elem_of_app. right. apply elem_of_cons. by left. }
    rewrite Hm.
    destruct (check_parameters_message _ _ _ Hm)
      as (before & k' & v' & after & Hsplit & Hbefore & Hk' & ->).
    exists before, k', v', after. split_and!; try done.
  - intros Hpre.
    rewrite Hitems, (check_parameters_first _ _ _ _ _ Hpre Hne). reflexivity.
Qed.

Lemma ValidateVolumeCapabilities_absent_key_witness :
  ValidateVolumeCapabilities Sample.accept_all Sample.ctrl Sample.req_missing_tier
  = Return (NotConfirmed "Parameter tier does not match").
Proof.
  refine (proj2 (ValidateVolumeCapabilities_absent_key
           Sample.accept_all Sample.ctrl Sample.req_missing_tier Sample.vol_A
           [("pool", "ssd")] [] "tier" "1" _ _ _ _) _).
  - vm_compute. reflexivity.
  - reflexivity.
  - reflexivity.
  - vm_compute. reflexivity.
  - constructor; [vm_compute; reflexivity|constructor].
Defined.

(** C10 as stated fails: key [b] is absent from the context, but the
    response names key [a], whose value differs and which comes first. *)
Lemma validate_absent_key_not_named :
  _get_vol Sample.ctrl (req_volume_id Sample.req_two_keys) = Some Sample.vol_A
  ∧ truthy_str (Sample.accept_all (req_volume_capabilities Sample.req_two_keys))
    = false
  ∧ ("b", "2") ∈ req_parameters Sample.req_two_keys
  ∧ req_volume_context Sample.req_two_keys !! "b" = None
  ∧ ValidateVolumeCapabilities Sample.accept_all Sample.ctrl Sample.req_two_keys
    ≠ Return (NotConfirmed "Parameter b does not match")
  ∧ ValidateVolumeCapabilities Sample.accept_all Sample.ctrl Sample.req_two_keys
    = Return (NotConfirmed "Parameter a does not match").
Proof.
  split_and!; try (vm_compute; reflexivity).
  - simpl. apply elem_of_cons. right. apply elem_of_cons. by left.
  - vm_compute. intros H. discriminate H.
Qed.

(** ** Converting a volume to the wire *)

Section ConvertVolumeType.

Variables (self : Controller) (vol : Volume).

(** A volume with a source volume: the handler reads the attribute
    [source_vol_id], which the record does not have, and the conversion
    raises instead of tagging the result. *)
Lemma convert_volume_type_cloned :
  truthy_str (source_volid vol) = true →
  _convert_volume_type self vol = Raise (AttributeError "source_vol_id").
Proof. unfold _convert_volume_type. simpl. intros ->. reflexivity. Qed.

(** A volume with no source volume and a snapshot is tagged with the
    snapshot. *)
Lemma convert_volume_type_from_snapshot (snap : string) :
  truthy_str (source_volid vol) = false →
  snapshot_id vol = Some snap →
  snap ≠ "" →
  ∃ w, _convert_volume_type self vol = Return w
       ∧ content_source w = Some (SnapshotSource snap).
Proof.
  unfold _convert_volume_type. simpl. intros -> -> Hsnap. simpl.
  apply String.eqb_neq in Hsnap. rewrite Hsnap. simpl. eauto.
Qed.

(** A volume with neither carries no content-source tag. *)
Lemma convert_volume_type_plain :
  truthy_str (source_volid vol) = false →
  truthy_str (snapshot_id vol) = false →
  ∃ w, _convert_volume_type self vol = Return w ∧ content_source w = None.
Proof.
  unfold _convert_volume_type. simpl. intros -> ->. simpl. eauto.
Qed.

(** The converted volume reports the recorded context, the size in bytes
    and, only when the instance has topologies, the topologies. *)
Lemma convert_volume_type_fields (w : WireVolume) :
  _convert_volume_type self vol = Return w →
  volume_context w = recorded_context vol
  ∧ capacity_bytes w = size vol * GB
  ∧ wire_volume_id w = id vol
  ∧ accessible_topology w
    = (if truthy_list (GRPC_TOPOLOGIES self) then GRPC_TOPOLOGIES self else None).
Proof.
  unfold _convert_volume_type. simpl.
  destruct (truthy_str (source_volid vol)); simpl; [discriminate|].
  intros [= <-]. simpl. done.
Qed.

End ConvertVolumeType.

(** C3, at the input where the code departs from it.  Volume B is a clone
    of volume A, so its [source_volid] is set; its conversion does not
    yield a result tagged with the source volume, it raises
    [AttributeError] for the misspelt attribute [source_vol_id]. *)
Theorem convert_volume_type_clone_raises :
  source_volid Sample.vol_B = Some "A"
  ∧ _convert_volume_type Sample.ctrl Sample.vol_B
    = Raise (AttributeError "source_vol_id").
Proof. split; vm_compute; reflexivity. Qed.

(** ** Topology *)

Lemma init_topology_unconfigured (CONF : Config) (constraint_type : ServiceType)
    (caps : list ServiceType) :
  truthy_dict (NODE_TOPOLOGY CONF) = false →
  _init_topology CONF constraint_type caps = (caps, None).
Proof. unfold _init_topology. intros ->. reflexivity. Qed.

Lemma Node_init_unconfigured (CONF : Config) (caps : list ServiceType)
    (node_id : option string) :
  truthy_dict (NODE_TOPOLOGY CONF) = false →
  Node_init CONF caps node_id
  = (caps, {| self_NODE_TOPOLOGY := None;
              node_info_resp := {| info_node_id := node_id;
                                   info_accessible_topology := None |} |}).
Proof. unfold Node_init. intros ->. reflexivity. Qed.

(** C7.  When the configuration carries no node topology, no response has
    an accessible-topology field: a controller built from it converts
    every volume it converts without the field, and a node built from it
    answers NodeGetInfo without the field, whatever the capability list,
    the persisted volumes, the volume and the node id. *)
Theorem no_topology_no_field (CONF : Config) (caps : list ServiceType)
    (persisted : gmap string Volume) (node_id : option string) :
  truthy_dict (NODE_TOPOLOGY CONF) = false →
  (∀ (vol : Volume) (w : WireVolume),
     _convert_volume_type (Controller_init CONF caps persisted).2 vol = Return w →
     accessible_topology w = None)
  ∧ info_accessible_topology (NodeGetInfo (Node_init CONF caps node_id).2) = None
  ∧ (Controller_init CONF caps persisted).1 = caps
  ∧ (Node_init CONF caps node_id).1 = caps.
Proof.
  intros Hconf. split_and!.
  - intros vol w Hw.
    apply convert_volume_type_fields in Hw as (_ & _ & _ & ->).
    unfold Controller_init.
    rewrite (init_topology_unconfigured _ _ _ Hconf). reflexivity.
  - rewrite (Node_init_unconfigured _ _ _ Hconf). reflexivity.
  - unfold Controller_init.
    rewrite (init_topology_unconfigured _ _ _ Hconf). reflexivity.
  - rewrite (Node_init_unconfigured _ _ _ Hconf). reflexivity.
Qed.

Lemma no_topology_no_field_witness :
  (∃ w, _convert_volume_type
          (Controller_init Sample.conf_plain [CONTROLLER_SERVICE]
             (volumes Sample.ctrl)).2 Sample.vol_A = Return w
        ∧ accessible_topology w = None)
  ∧ info_accessible_topology
      (NodeGetInfo (Node_init Sample.conf_plain [CONTROLLER_SERVICE]
                      (Some "node-1")).2) = None.
Proof.
  pose proof (no_topology_no_field Sample.conf_plain [CONTROLLER_SERVICE]
                (volumes Sample.ctrl) (Some "node-1") eq_refl)
    as (Hvol & Hnode & _ & _).
  split; [|exact Hnode].
  eexists. split; [vm_compute; reflexivity|].
  apply (Hvol Sample.vol_A). vm_compute. reflexivity.
Defined.

(** ** Registering the topology capability *)

Lemma occurrences_app (x : ServiceType) (l1 l2 : list ServiceType) :
  occurrences x (l1 ++ l2) = (occurrences x l1 + occurrences x l2)%nat.
Proof. unfold occurrences. rewrite filter_app, length_app. reflexivity. Qed.

Lemma occurrences_cons (x y : ServiceType) (l : list ServiceType) :
  occurrences x (y :: l)
  = ((if decide (x = y) then 1 else 0) + occurrences x l)%nat.
Proof.
  unfold occurrences. destruct (decide (x = y)) as [Heq|Hne].
  - rewrite filter_cons_True by exact Heq. reflexivity.
  - rewrite filter_cons_False by exact Hne. reflexivity.
Qed.

Lemma occurrences_absent (x : ServiceType) (l : list ServiceType) :
  x ∉ l → occurrences x l = 0%nat.
Proof.
  induction l as [|y l IH]; [reflexivity|].
  intros Hnotin. apply not_elem_of_cons in Hnotin as [Hne Hl].
  rewrite occurrences_cons, (IH Hl). destruct (decide (x = y)); done.
Qed.

Lemma occurrences_present (x : ServiceType) (l : list ServiceType) :
  x ∈ l → (1 ≤ occurrences x l)%nat.
Proof.
  induction l as [|y l IH]; intros Hin.
  - by apply elem_of_nil in Hin.
  - rewrite occurrences_cons. destruct (decide (x = y)) as [->|Hne]; [lia|].
    apply elem_of_cons in Hin as [?|Hin]; [done|]. simpl. exact (IH Hin).
Qed.

(** What one construction does to the shared list. *)
Lemma Node_init_capabilities (CONF : Config) (caps : list ServiceType)
    (node_id : option string) :
  (Node_init CONF caps node_id).1
  = if truthy_dict (NODE_TOPOLOGY CONF)
    then if bool_decide (VOLUME_ACCESSIBILITY_CONSTRAINTS ∈ caps)
         then caps else caps ++ [VOLUME_ACCESSIBILITY_CONSTRAINTS]
    else caps.
Proof.
  unfold Node_init. destruct (truthy_dict (NODE_TOPOLOGY CONF)); reflexivity.
Qed.

Lemma Node_init_registered (CONF : Config) (caps : list ServiceType)
    (node_id : option string) :
  truthy_dict (NODE_TOPOLOGY CONF) = true →
  VOLUME_ACCESSIBILITY_CONSTRAINTS ∈ (Node_init CONF caps node_id).1.
Proof.
  intros Hconf. rewrite Node_init_capabilities, Hconf.
  case_bool_decide as Hin; [exact Hin|].
  apply elem_of_app. right. apply elem_of_cons. by left.
Qed.

Lemma Node_init_already_registered (CONF : Config) (caps : list ServiceType)
    (node_id : option string) :
  VOLUME_ACCESSIBILITY_CONSTRAINTS ∈ caps →
  (Node_init CONF caps node_id).1 = caps.
Proof.
  intros Hin. rewrite Node_init_capabilities.
  rewrite bool_decide_eq_true_2 by exact Hin.
  destruct (truthy_dict (NODE_TOPOLOGY CONF)); reflexivity.
Qed.

Lemma Node_init_occurrences (CONF : Config) (caps : list ServiceType)
    (node_id : option string) :
  (occurrences VOLUME_ACCESSIBILITY_CONSTRAINTS caps ≤ 1)%nat →
  (occurrences VOLUME_ACCESSIBILITY_CONSTRAINTS (Node_init CONF caps node_id).1
   ≤ 1)%nat.
Proof.
  intros Hcaps. rewrite Node_init_capabilities.
  destruct (truthy_dict (NODE_TOPOLOGY CONF)); [|exact Hcaps].
  case_bool_decide as Hin; [exact Hcaps|].
  rewrite occurrences_app, (occurrences_absent _ _ Hin).
  rewrite occurrences_cons, decide_True by reflexivity.
  change (occurrences VOLUME_ACCESSIBILITY_CONSTRAINTS []) with 0%nat. lia.
Qed.

Lemma Node_constructions_already_registered (CONF : Config)
    (node_ids : list (option string)) (caps : list ServiceType) :
  VOLUME_ACCESSIBILITY_CONSTRAINTS ∈ caps →
  Node_constructions CONF caps node_ids = caps.
Proof.
  induction node_ids as [|node_id node_ids IH]; intros Hin; [reflexivity|].
  simpl. rewrite (Node_init_already_registered _ _ _ Hin). exact (IH Hin).
Qed.

(** C9.  With node topology configured, any number of node constructions
    on a capability list that holds the accessibility-constraints
    capability at most once leaves a list that holds it at most once, and
    exactly once after the first construction; a further construction
    leaves the list as it is. *)
Theorem Node_constructions_register_once (CONF : Config)
    (node_ids : list (option string)) (caps : list ServiceType) :
  truthy_dict (NODE_TOPOLOGY CONF) = true →
  (occurrences VOLUME_ACCESSIBILITY_CONSTRAINTS caps ≤ 1)%nat →
  (occurrences VOLUME_ACCESSIBILITY_CONSTRAINTS
     (Node_constructions CONF caps node_ids) ≤ 1)%nat
  ∧ (node_ids ≠ [] →
     occurrences VOLUME_ACCESSIBILITY_CONSTRAINTS
       (Node_constructions CONF caps node_ids) = 1%nat)
  ∧ (∀ node_id more,
       Node_constructions CONF caps (node_id :: more)
       = (Node_init CONF caps node_id).1).
Proof.
  intros Hconf Hcaps.
  assert (Hstable : ∀ node_id more,
            Node_constructions CONF caps (node_id :: more)
            = (Node_init CONF caps node_id).1).
  { intros node_id more. simpl.
    apply Node_constructions_already_registered.
    apply (Node_init_registered _ _ _ Hconf). }
  split_and!; [| |exact Hstable].
  - destruct node_ids as [|node_id more]; [exact Hcaps|].
    rewrite Hstable. apply Node_init_occurrences, Hcaps.
  - destruct node_ids as [|node_id more]; [done|]. intros _.
    rewrite Hstable.
    pose proof (Node_init_occurrences CONF caps node_id Hcaps).
    pose proof (occurrences_present _ _ (Node_init_registered CONF caps node_id Hconf)).
    lia.
Qed.

Lemma Node_constructions_register_once_witness :
  occurrences VOLUME_ACCESSIBILITY_CONSTRAINTS
    (Node_constructions Sample.conf_rack [CONTROLLER_SERVICE]
       [Some "node-1"; Some "node-2"; None]) = 1%nat.
Proof.
  refine (proj1 (proj2 (Node_constructions_register_once Sample.conf_rack
            [Some "node-1"; Some "node-2"; None] [CONTROLLER_SERVICE] _ _)) _).
  - vm_compute. reflexivity.
  - vm_compute. lia.
  - discriminate.
Defined.

(** ** Volume statistics on a node *)

Section NodeGetVolumeStats.

Variable host : Host.
Variable _get_device : string -> option string.
Variable _get_vol_device : string -> option string * option string.
Variable py_int : string -> option Z.
Variable request : StatsRequest.

Let result := NodeGetVolumeStats host _get_device _get_vol_device py_int request.

Lemma stats_no_access :
  os_stat host (volume_path request) = inl OSError →
  result = Abort NOT_FOUND ("Cannot access path " +:+ volume_path request).
Proof. unfold result, NodeGetVolumeStats. intros ->. reflexivity. Qed.

Lemma stats_wrong_volume (st_mode : Z) :
  os_stat host (volume_path request) = inr st_mode →
  truthy_str (_get_vol_device (stats_volume_id request)).1 = false
  ∨ _get_device (volume_path request)
    ≠ (_get_vol_device (stats_volume_id request)).2 →
  result = Abort NOT_FOUND "Path does not match with requested volume".
Proof.
  unfold result, NodeGetVolumeStats. intros -> Hcheck. simpl.
  destruct (_get_vol_device (stats_volume_id request))
    as [device_for_vol private_bind]; simpl in *.
  destruct Hcheck as [-> | Hne]; [reflexivity|].
  rewrite (bool_decide_eq_false_2 _ Hne), orb_true_r. reflexivity.
Qed.

(** Past the checks the handler branches on the type of the path. *)
Lemma stats_after_checks (st_mode : Z) (device_for_vol : string) :
  checks_pass host _get_device _get_vol_device request st_mode device_for_vol →
  result
  = '(size, used, available) ←
      (if S_ISDIR st_mode then
         stats ← or_raise OSError (os_statvfs host (volume_path request));
         Return (f_frsize stats * f_blocks stats,
                 Some (f_frsize stats * f_blocks stats
                       - f_frsize stats * f_bavail stats),
                 Some (f_frsize stats * f_bavail stats))
       else
         text ← or_raise OSError
                  (read_file host
                     (path_join
                        (path_join "/sys/class/block" (basename device_for_vol))
                        "size"));
         blocks ← or_raise ValueError (py_int text);
         Return (512 * blocks, None, None));
    Return {| usage := [ {| unit := BYTES; total := size;
                            used := used; available := available |} ] |}.
Proof.
  intros (Hstat & Hdev & Hvol).
  unfold result, NodeGetVolumeStats. rewrite Hstat, Hvol. simpl.
  apply String.eqb_neq in Hdev. rewrite Hdev. simpl.
  rewrite bool_decide_eq_true_2 by reflexivity. reflexivity.
Qed.

Lemma stats_directory (st_mode : Z) (device_for_vol : string) (stats : StatVFS) :
  checks_pass host _get_device _get_vol_device request st_mode device_for_vol →
  S_ISDIR st_mode = true →
  os_statvfs host (volume_path request) = Some stats →
  result
  = Return {| usage :=
      [ {| unit := BYTES;
           total := f_frsize stats * f_blocks stats;
           used := Some (f_frsize stats * f_blocks stats
                         - f_frsize stats * f_bavail stats);
           available := Some (f_frsize stats * f_bavail stats) |} ] |}.
Proof.
  intros Hchecks Hdir Hvfs.
  rewrite (stats_after_checks _ _ Hchecks), Hdir, Hvfs. reflexivity.
Qed.

Lemma stats_block (st_mode : Z) (device_for_vol text : string) (blocks : Z) :
  checks_pass host _get_device _get_vol_device request st_mode device_for_vol →
  S_ISDIR st_mode = false →
  read_file host
    (path_join (path_join "/sys/class/block" (basename device_for_vol)) "size")
  = Some text →
  py_int text = Some blocks →
  result
  = Return {| usage :=
      [ {| unit := BYTES; total := 512 * blocks;
           used := None; available := None |} ] |}.
Proof.
  intros Hchecks Hdir Hread Hint.
  rewrite (stats_after_checks _ _ Hchecks), Hdir. simpl.
  rewrite Hread. simpl. rewrite Hint. reflexivity.
Qed.

(** An unreadable size attribute is not caught: the error of the read
    leaves the handler as it is. *)
Lemma stats_block_unreadable (st_mode : Z) (device_for_vol : string) :
  checks_pass host _get_device _get_vol_device request st_mode device_for_vol →
  S_ISDIR st_mode = false →
  read_file host
    (path_join (path_join "/sys/class/block" (basename device_for_vol)) "size")
  = None →
  result = Raise OSError.
Proof.
  intros Hchecks Hdir Hread.
  rewrite (stats_after_checks _ _ Hchecks), Hdir. simpl.
  rewrite Hread. reflexivity.
Qed.

End NodeGetVolumeStats.

(** C4 (as amended).  In the body of NodeGetVolumeStats, an [OSError]
    raised by [os.stat] on the path of the request (the path is missing or
    may not be accessed) is surfaced to the caller as the NOT_FOUND
    status, never as a raw I/O error. *)
Theorem NodeGetVolumeStats_path_not_accessible (host : Host)
    (_get_device : string -> option string)
    (_get_vol_device : string -> option string * option string)
    (py_int : string -> option Z) (request : StatsRequest) :
  os_stat host (volume_path request) = inl OSError →
  NodeGetVolumeStats host _get_device _get_vol_device py_int request
  = Abort NOT_FOUND ("Cannot access path " +:+ volume_path request).
Proof. apply stats_no_access. Qed.

Lemma NodeGetVolumeStats_path_not_accessible_witness :
  NodeGetVolumeStats Sample.host Sample.get_device Sample.get_vol_device
    Sample.sample_int {| stats_volume_id := "vol-1"; volume_path := "/mnt/nope" |}
  = Abort NOT_FOUND "Cannot access path /mnt/nope".
Proof.
  apply (NodeGetVolumeStats_path_not_accessible Sample.host Sample.get_device
           Sample.get_vol_device Sample.sample_int
           {| stats_volume_id := "vol-1"; volume_path := "/mnt/nope" |}).
  reflexivity.
Defined.

(** C4 as stated fails: the raw volume at [/mnt/raw3] passes the path and
    device checks, the size attribute of its device [sdc] cannot be read,
    and the handler ends with the raw [OSError] of the read, not with the
    NOT_FOUND status. *)
Lemma stats_unreadable_size_attribute :
  let request := {| stats_volume_id := "vol-3"; volume_path := "/mnt/raw3" |} in
  let result :=
    NodeGetVolumeStats Sample.host Sample.get_device Sample.get_vol_device
      Sample.sample_int request in
  checks_pass Sample.host Sample.get_device Sample.get_vol_device request
    0x61B0 "/dev/sdc"
  ∧ S_ISDIR 0x61B0 = false
  ∧ read_file Sample.host "/sys/class/block/sdc/size" = None
  ∧ result = Raise OSError
  ∧ abort_code result ≠ Some NOT_FOUND.
Proof.
  intros request result.
  assert (Hchecks : checks_pass Sample.host Sample.get_device
                      Sample.get_vol_device request 0x61B0 "/dev/sdc").
  { split_and!; [reflexivity| |reflexivity]. intros H. discriminate H. }
  assert (Hresult : result = Raise OSError).
  { apply (stats_block_unreadable Sample.host Sample.get_device
             Sample.get_vol_device Sample.sample_int request _ _ Hchecks);
      reflexivity. }
  split_and!; [exact Hchecks|reflexivity|reflexivity|exact Hresult|].
  rewrite Hresult. simpl. discriminate.
Qed.

(** C5 (as amended).  When the path is accessible, the handler aborts
    with NOT_FOUND if no device is recorded for the requested volume id,
    or if the device resolved from the path does not equal the private
    bind path that [_get_vol_device] returns for the volume, its second
    value. *)
Theorem NodeGetVolumeStats_wrong_volume (host : Host)
    (_get_device : string -> option string)
    (_get_vol_device : string -> option string * option string)
    (py_int : string -> option Z) (request : StatsRequest) (st_mode : Z) :
  os_stat host (volume_path request) = inr st_mode →
  truthy_str (_get_vol_device (stats_volume_id request)).1 = false
  ∨ _get_device (volume_path request)
    ≠ (_get_vol_device (stats_volume_id request)).2 →
  NodeGetVolumeStats host _get_device _get_vol_device py_int request
  = Abort NOT_FOUND "Path does not match with requested volume".
Proof. apply stats_wrong_volume. Qed.

Lemma NodeGetVolumeStats_wrong_volume_witness :
  Sample2.get_device_x "/mnt/x" = (Sample2.get_vol_device_x "vol-4").1
  ∧ NodeGetVolumeStats Sample2.host_x Sample2.get_device_x
      Sample2.get_vol_device_x Sample.sample_int
      {| stats_volume_id := "vol-4"; volume_path := "/mnt/x" |}
    = Abort NOT_FOUND "Path does not match with requested volume"
  ∧ NodeGetVolumeStats Sample.host Sample.get_device Sample.get_vol_device
      Sample.sample_int {| stats_volume_id := "vol-9"; volume_path := "/mnt/data" |}
    = Abort NOT_FOUND "Path does not match with requested volume".
Proof.
  split_and!.
  - reflexivity.
  - apply (NodeGetVolumeStats_wrong_volume Sample2.host_x Sample2.get_device_x
             Sample2.get_vol_device_x Sample.sample_int
             {| stats_volume_id := "vol-4"; volume_path := "/mnt/x" |} 0x41ED).
    + reflexivity.
    + right. vm_compute. intros H. discriminate H.
  - apply (NodeGetVolumeStats_wrong_volume Sample.host Sample.get_device
             Sample.get_vol_device Sample.sample_int
             {| stats_volume_id := "vol-9"; volume_path := "/mnt/data" |} 0x41ED).
    + reflexivity.
    + left. reflexivity.
Defined.

(** C5 as stated fails: for volume vol-1 at [/mnt/data] the path can be
    accessed, and the device resolved from the path is not the device
    recorded for the volume, yet the handler reports the usage: the device
    of the path is compared with the private bind path only. *)
Lemma stats_other_device_reported :
  let request := {| stats_volume_id := "vol-1"; volume_path := "/mnt/data" |} in
  let result :=
    NodeGetVolumeStats Sample.host Sample.get_device Sample.get_vol_device
      Sample.sample_int request in
  os_stat Sample.host (volume_path request) = inr 0x41ED
  ∧ (Sample.get_vol_device (stats_volume_id request)).1 = Some "/dev/sda"
  ∧ Sample.get_device (volume_path request)
    ≠ (Sample.get_vol_device (stats_volume_id request)).1
  ∧ abort_code result ≠ Some NOT_FOUND
  ∧ result
    = Return {| usage := [ {| unit := BYTES; total := 1073741824;
                              used := Some 254541824;
                              available := Some 819200000 |} ] |}.
Proof.
  intros request result. split_and!.
  - reflexivity.
  - reflexivity.
  - vm_compute. intros H. discriminate H.
  - vm_compute. intros H. discriminate H.
  - vm_compute. reflexivity.
Qed.

(** C6.  Past the path and device checks: for a directory whose
    filesystem statistics are read, the usage returned has
    total = block_size * total_blocks, available = block_size *
    available_blocks and used + available = total; for any other path,
    with the block count read from the size attribute of the device, the
    usage returned has total = 512 * block_count and neither used nor
    available. *)
Theorem NodeGetVolumeStats_usage (host : Host)
    (_get_device : string -> option string)
    (_get_vol_device : string -> option string * option string)
    (py_int : string -> option Z) (request : StatsRequest)
    (st_mode : Z) (device_for_vol : string) :
  checks_pass host _get_device _get_vol_device request st_mode device_for_vol →
  let result :=
    NodeGetVolumeStats host _get_device _get_vol_device py_int request in
  (S_ISDIR st_mode = true →
   ∀ stats, os_statvfs host (volume_path request) = Some stats →
     ∃ u used_bytes available_bytes,
       result = Return {| usage := [u] |}
       ∧ unit u = BYTES
       ∧ total u = f_frsize stats * f_blocks stats
       ∧ available u = Some available_bytes
       ∧ available_bytes = f_frsize stats * f_bavail stats
       ∧ used u = Some used_bytes
       ∧ used_bytes + available_bytes = total u)
  ∧ (S_ISDIR st_mode = false →
     ∀ text blocks,
       read_file host
         (path_join (path_join "/sys/class/block" (basename device_for_vol))
            "size") = Some text →
       py_int text = Some blocks →
       result = Return {| usage := [ {| unit := BYTES; total := 512 * blocks;
                                        used := None; available := None |} ] |}).
Proof.
  intros Hchecks result. split.
  - intros Hdir stats Hvfs. subst result.
    rewrite (stats_directory _ _ _ _ _ _ _ _ Hchecks Hdir Hvfs).
    eexists _, _, _. split_and!; try reflexivity. simpl. lia.
  - intros Hblock text blocks Hread Hint. subst result.
    exact (stats_block _ _ _ _ _ _ _ _ _ Hchecks Hblock Hread Hint).
Qed.

Lemma NodeGetVolumeStats_usage_witness :
  NodeGetVolumeStats Sample.host Sample.get_device Sample.get_vol_device
    Sample.sample_int {| stats_volume_id := "vol-2"; volume_path := "/mnt/raw" |}
  = Return {| usage := [ {| unit := BYTES; total := 512 * 2097152;
                            used := None; available := None |} ] |}
  ∧ ∃ u used_bytes available_bytes,
      NodeGetVolumeStats Sample.host Sample.get_device Sample.get_vol_device
        Sample.sample_int
        {| stats_volume_id := "vol-1"; volume_path := "/mnt/data" |}
      = Return {| usage := [u] |}
      ∧ unit u = BYTES
      ∧ total u = 4096 * 262144
      ∧ available u = Some available_bytes
      ∧ available_bytes = 4096 * 200000
      ∧ used u = Some used_bytes
      ∧ used_bytes + available_bytes = total u.
Proof.
  split.
  - refine (proj2 (NodeGetVolumeStats_usage Sample.host Sample.get_device
              Sample.get_vol_device Sample.sample_int
              {| stats_volume_id := "vol-2"; volume_path := "/mnt/raw" |}
              0x61B0 "/dev/sdb" _) _ _ 2097152 _ _).
    + split_and!; [reflexivity| |reflexivity]. intros H. discriminate H.
    + reflexivity.
    + reflexivity.
    + vm_compute. reflexivity.
  - refine (proj1 (NodeGetVolumeStats_usage Sample.host Sample.get_device
              Sample.get_vol_device Sample.sample_int
              {| stats_volume_id := "vol-1"; volume_path := "/mnt/data" |}
              0x41ED "/dev/sda" _) _
              {| f_frsize := 4096; f_blocks := 262144; f_bavail := 200000 |} _).
    + split_and!; [reflexivity| |reflexivity]. intros H. discriminate H.
    + reflexivity.
    + reflexivity.
Defined.

(** * Further properties *)

(** ** Cloning and the create dispatch *)

(** X1.  A clone that succeeds at one requested size succeeds at every
    larger one, from the same source and with the larger size. *)
Theorem create_from_vol_larger_request
    (clone : Volume -> string -> Z -> gmap string string -> Volume)
    (self : Controller) (vol_id name : string) (vol_size larger : Z)
    (params : gmap string string) :
  returns (_create_from_vol clone self vol_id vol_size name params) = true →
  vol_size ≤ larger →
  ∃ src_vol,
    _get_vol self vol_id = Some src_vol
    ∧ _create_from_vol clone self vol_id vol_size name params
      = Return (clone src_vol name vol_size params)
    ∧ _create_from_vol clone self vol_id larger name params
      = Return (clone src_vol name larger params).
Proof.
  unfold _create_from_vol.
  destruct (_get_vol self vol_id) as [src_vol|]; [|discriminate].
  destruct (status_clonable (status src_vol)); simpl; [|discriminate].
  case_bool_decide as Hbig; [discriminate|]. intros _ Hle.
  exists src_vol. rewrite bool_decide_eq_false_2 by lia. done.
Qed.

Lemma create_from_vol_larger_request_witness :
  ∃ src_vol,
    _get_vol Sample.ctrl "A" = Some src_vol
    ∧ _create_from_vol Sample.backend_clone Sample.ctrl "A" 10 "B" ∅
      = Return (Sample.backend_clone src_vol "B" 10 ∅)
    ∧ _create_from_vol Sample.backend_clone Sample.ctrl "A" 25 "B" ∅
      = Return (Sample.backend_clone src_vol "B" 25 ∅).
Proof.
  apply (create_from_vol_larger_request Sample.backend_clone Sample.ctrl
           "A" "B" 10 25 ∅).
  - vm_compute. reflexivity.
  - lia.
Defined.

Section CreateVolumeFacts.

Variable clone : Volume -> string -> Z -> gmap string string -> Volume.
Variable base_create_volume :
  string -> Z -> CreateVolumeRequest -> gmap string string -> Outcome Volume.
Variable _create_from_snap :
  string -> Z -> string -> gmap string string -> Outcome Volume.
Variables (self : Controller) (vol_size : Z) (request : CreateVolumeRequest).
Variable params : gmap string string.

Lemma create_volume_from_volume (name volume_id : string) :
  create_content_source request = Some (Some (VolumeSource volume_id)) →
  _create_volume clone base_create_volume _create_from_snap self name vol_size
    request params
  = _create_from_vol clone self volume_id vol_size (create_name request) params.
Proof. unfold _create_volume. intros ->. reflexivity. Qed.

Lemma create_volume_empty_source (name : string) :
  create_content_source request = Some None →
  _create_volume clone base_create_volume _create_from_snap self name vol_size
    request params
  = _create_from_vol clone self "" vol_size (create_name request) params.
Proof. unfold _create_volume. intros ->. reflexivity. Qed.

End CreateVolumeFacts.

(** X2.  When the request carries a content source, the name handed to
    [_create_volume] plays no part: the new volume is named after the
    request, so any two names give the same outcome. *)
Theorem create_volume_ignores_name
    (clone : Volume -> string -> Z -> gmap string string -> Volume)
    (base_create_volume :
       string -> Z -> CreateVolumeRequest -> gmap string string -> Outcome Volume)
    (_create_from_snap :
       string -> Z -> string -> gmap string string -> Outcome Volume)
    (self : Controller) (vol_size : Z) (request : CreateVolumeRequest)
    (params : gmap string string) (source : option VolumeContentSource)
    (name other : string) :
  create_content_source request = Some source →
  _create_volume clone base_create_volume _create_from_snap self name vol_size
    request params
  = _create_volume clone base_create_volume _create_from_snap self other
      vol_size request params.
Proof. unfold _create_volume. intros ->. reflexivity. Qed.

Lemma create_volume_ignores_name_witness :
  _create_volume Sample.backend_clone Sample2.base_create
    Sample2.create_from_snap Sample.ctrl "first" 10 Sample2.req_clone_A ∅
  = _create_volume Sample.backend_clone Sample2.base_create
      Sample2.create_from_snap Sample.ctrl "second" 10 Sample2.req_clone_A ∅.
Proof.
  apply (create_volume_ignores_name Sample.backend_clone Sample2.base_create
           Sample2.create_from_snap Sample.ctrl 10 Sample2.req_clone_A ∅
           (Some (VolumeSource "A")) "first" "second").
  reflexivity.
Defined.

(** X3.  A request whose content source names a volume is served by the
    clone path alone, whatever the base and the snapshot paths would do:
    a source that does not exist aborts with NOT_FOUND, and a source that
    is 'available' or 'in-use' and no bigger than the requested size is
    cloned under the name of the request. *)
Theorem create_volume_clones_source
    (clone : Volume -> string -> Z -> gmap string string -> Volume)
    (base_create_volume :
       string -> Z -> CreateVolumeRequest -> gmap string string -> Outcome Volume)
    (_create_from_snap :
       string -> Z -> string -> gmap string string -> Outcome Volume)
    (self : Controller) (name : string) (vol_size : Z)
    (request : CreateVolumeRequest) (params : gmap string string)
    (volume_id : string) :
  create_content_source request = Some (Some (VolumeSource volume_id)) →
  let result :=
    _create_volume clone base_create_volume _create_from_snap self name
      vol_size request params in
  match _get_vol self volume_id with
  | None =>
      result = Abort NOT_FOUND ("Volume " +:+ volume_id +:+ " does not exist")
  | Some src_vol =>
      (status src_vol = "available" ∨ status src_vol = "in-use") →
      size src_vol ≤ vol_size →
      result = Return (clone src_vol (create_name request) vol_size params)
  end.
Proof.
  intros Hsource result. subst result.
  rewrite (create_volume_from_volume _ _ _ _ _ _ _ _ _ Hsource).
  destruct (_get_vol self volume_id) as [src_vol|] eqn:Hget.
  - intros Hstatus Hfit. apply status_clonable_spec in Hstatus.
    exact (create_from_vol_clones _ _ _ _ _ _ _ Hget Hstatus Hfit).
  - exact (create_from_vol_missing _ _ _ _ _ _ Hget).
Qed.

Lemma create_volume_clones_source_witness :
  _create_volume Sample.backend_clone Sample2.base_create
    Sample2.create_from_snap Sample.ctrl "ignored" 10 Sample2.req_clone_A ∅
  = Return Sample.vol_B.
Proof.
  pose proof (create_volume_clones_source Sample.backend_clone
                Sample2.base_create Sample2.create_from_snap Sample.ctrl
                "ignored" 10 Sample2.req_clone_A ∅ "A" eq_refl) as H.
  change (_get_vol Sample.ctrl "A") with (Some Sample.vol_A) in H.
  apply H; [left; reflexivity|simpl; lia].
Defined.

(** X4.  A content source that is present but names neither a snapshot
    nor a volume is taken as a clone of the volume with the empty id:
    unless such a volume is stored, the request aborts with NOT_FOUND. *)
Theorem create_volume_empty_source_not_found
    (clone : Volume -> string -> Z -> gmap string string -> Volume)
    (base_create_volume :
       string -> Z -> CreateVolumeRequest -> gmap string string -> Outcome Volume)
    (_create_from_snap :
       string -> Z -> string -> gmap string string -> Outcome Volume)
    (self : Controller) (name : string) (vol_size : Z)
    (request : CreateVolumeRequest) (params : gmap string string) :
  create_content_source request = Some None →
  _get_vol self "" = None →
  _create_volume clone base_create_volume _create_from_snap self name vol_size
    request params
  = Abort NOT_FOUND "Volume  does not exist".
Proof.
  intros Hsource Hget.
  rewrite (create_volume_empty_source _ _ _ _ _ _ _ _ Hsource).
  exact (create_from_vol_missing _ _ _ _ _ _ Hget).
Qed.

Lemma create_volume_empty_source_not_found_witness :
  _create_volume Sample.backend_clone Sample2.base_create
    Sample2.create_from_snap Sample.ctrl "B" 10 Sample2.req_empty_source ∅
  = Abort NOT_FOUND "Volume  does not exist".
Proof.
  apply (create_volume_empty_source_not_found Sample.backend_clone
           Sample2.base_create Sample2.create_from_snap Sample.ctrl "B" 10
           Sample2.req_empty_source ∅).
  - reflexivity.
  - vm_compute. reflexivity.
Defined.

(** ** More on validation *)

(** X6.  A message of the capability check comes before the parameters:
    for a stored volume, a non-empty message is returned as the
    not-confirmed response even when the parameters agree with the
    context or disagree with it. *)
Theorem ValidateVolumeCapabilities_capability_message
    (validate : list VolumeCapability -> option string)
    (self : Controller) (request : ValidateRequest) (vol : Volume)
    (message : string) :
  _get_vol self (req_volume_id request) = Some vol →
  validate (req_volume_capabilities request) = Some message →
  message ≠ "" →
  ValidateVolumeCapabilities validate self request
  = Return (NotConfirmed message).
Proof.
  unfold ValidateVolumeCapabilities. intros -> -> Hmsg. simpl.
  apply String.eqb_neq in Hmsg. rewrite Hmsg. reflexivity.
Qed.

Lemma ValidateVolumeCapabilities_capability_message_witness :
  ValidateVolumeCapabilities (fun _ => Some "Unsupported access mode")
    Sample.ctrl Sample.req_two_keys
  = Return (NotConfirmed "Unsupported access mode").
Proof.
  apply (ValidateVolumeCapabilities_capability_message
           (fun _ => Some "Unsupported access mode") Sample.ctrl
           Sample.req_two_keys Sample.vol_A "Unsupported access mode").
  - vm_compute. reflexivity.
  - reflexivity.
  - intros H. discriminate H.
Defined.

(** X7.  For a stored volume, the response is a confirmation exactly when
    the capability check has no message and every parameter has its value
    in the context of the request; the confirmation echoes the context,
    the capabilities and the parameters of the request. *)
Theorem ValidateVolumeCapabilities_confirmed_iff
    (validate : list VolumeCapability -> option string)
    (self : Controller) (request : ValidateRequest) (vol : Volume)
    (confirmed : Confirmed) :
  _get_vol self (req_volume_id request) = Some vol →
  ValidateVolumeCapabilities validate self request
  = Return (IsConfirmed confirmed)
  ↔ truthy_str (validate (req_volume_capabilities request)) = false
    ∧ Forall (agrees (req_volume_context request)) (req_parameters request)
    ∧ confirmed
      = {| confirmed_volume_context := req_volume_context request;
           confirmed_volume_capabilities := req_volume_capabilities request;
           confirmed_parameters := req_parameters request |}.
Proof.
  intros Hget. unfold ValidateVolumeCapabilities. rewrite Hget.
  destruct (truthy_str _) eqn:Hcaps.
  - split; [discriminate|]. intros [H _]. discriminate H.
  - rewrite <- check_parameters_agree.
    destruct (check_parameters _ _) eqn:Hcheck.
    + split; [discriminate|]. intros (_ & H & _). discriminate H.
    + split.
      * intros [= <-]. done.
      * intros (_ & _ & ->). reflexivity.
Qed.

Lemma ValidateVolumeCapabilities_confirmed_iff_witness :
  ValidateVolumeCapabilities Sample.accept_all Sample.ctrl Sample.req_hdd
  = Return (IsConfirmed
      {| confirmed_volume_context := req_volume_context Sample.req_hdd;
         confirmed_volume_capabilities := req_volume_capabilities Sample.req_hdd;
         confirmed_parameters := req_parameters Sample.req_hdd |}).
Proof.
  apply (ValidateVolumeCapabilities_confirmed_iff Sample.accept_all
           Sample.ctrl Sample.req_hdd Sample.vol_A).
  - vm_compute. reflexivity.
  - split_and!; [reflexivity| |reflexivity].
    constructor; [vm_compute; reflexivity|constructor].
Defined.

(** X8.  The order in which the parameters are iterated decides which key
    a not-confirmed response names, not whether the request is confirmed:
    two requests that differ only in the order of their parameters are
    both confirmed or both not. *)
Theorem ValidateVolumeCapabilities_order
    (validate : list VolumeCapability -> option string)
    (self : Controller) (request reordered : ValidateRequest) :
  req_volume_id reordered = req_volume_id request →
  req_volume_capabilities reordered = req_volume_capabilities request →
  req_volume_context reordered = req_volume_context request →
  req_parameters reordered ≡ₚ req_parameters request →
  (∃ c, ValidateVolumeCapabilities validate self request
        = Return (IsConfirmed c))
  ↔ (∃ c, ValidateVolumeCapabilities validate self reordered
          = Return (IsConfirmed c)).
Proof.
  intros Hid Hcaps Hctx Hperm.
  destruct (_get_vol self (req_volume_id request)) as [vol|] eqn:Hget.
  - assert (Hget' : _get_vol self (req_volume_id reordered) = Some vol)
      by (rewrite Hid; exact Hget).
    split; intros [c Hc].
    + apply (ValidateVolumeCapabilities_confirmed_iff _ _ _ _ _ Hget) in Hc
        as (Hmsg & Hall & _).
      eexists.
      apply (ValidateVolumeCapabilities_confirmed_iff _ _ _ _ _ Hget').
      rewrite Hcaps, Hctx. split_and!; [exact Hmsg| |reflexivity].
      rewrite Hperm. exact Hall.
    + apply (ValidateVolumeCapabilities_confirmed_iff _ _ _ _ _ Hget') in Hc
        as (Hmsg & Hall & _).
      eexists.
      apply (ValidateVolumeCapabilities_confirmed_iff _ _ _ _ _ Hget).
      rewrite Hcaps in Hmsg. rewrite Hctx, Hperm in Hall.
      split_and!; [exact Hmsg|exact Hall|reflexivity].
  - unfold ValidateVolumeCapabilities. rewrite Hid, Hget.
    split; intros [c Hc]; discriminate Hc.
Qed.

Lemma ValidateVolumeCapabilities_order_witness :
  ((∃ c, ValidateVolumeCapabilities Sample.accept_all Sample.ctrl
           Sample.req_two_keys = Return (IsConfirmed c))
   ↔ (∃ c, ValidateVolumeCapabilities Sample.accept_all Sample.ctrl
             Sample2.req_two_keys_swapped = Return (IsConfirmed c)))
  ∧ ValidateVolumeCapabilities Sample.accept_all Sample.ctrl
      Sample.req_two_keys = Return (NotConfirmed "Parameter a does not match")
  ∧ ValidateVolumeCapabilities Sample.accept_all Sample.ctrl
      Sample2.req_two_keys_swapped
    = Return (NotConfirmed "Parameter b does not match").
Proof.
  split_and!; [|vm_compute; reflexivity|vm_compute; reflexivity].
  apply (ValidateVolumeCapabilities_order Sample.accept_all Sample.ctrl
           Sample.req_two_keys Sample2.req_two_keys_swapped);
    try reflexivity.
  simpl. apply Permutation_swap.
Defined.

(** X9.  The record that is looked up is only tested for existence: two
    controllers that both store a volume under the requested id, however
    different the two records, give the same response. *)
Theorem ValidateVolumeCapabilities_ignores_record
    (validate : list VolumeCapability -> option string)
    (self other : Controller) (request : ValidateRequest) :
  is_Some (_get_vol self (req_volume_id request)) →
  is_Some (_get_vol other (req_volume_id request)) →
  ValidateVolumeCapabilities validate self request
  = ValidateVolumeCapabilities validate other request.
Proof.
  intros [vol Hvol] [vol' Hvol'].
  unfold ValidateVolumeCapabilities. rewrite Hvol, Hvol'. reflexivity.
Qed.

Lemma ValidateVolumeCapabilities_ignores_record_witness :
  ValidateVolumeCapabilities Sample.accept_all Sample.ctrl Sample.req_hdd
  = ValidateVolumeCapabilities Sample.accept_all
      {| volumes := {[ "A" := Sample.vol_D ]}; GRPC_TOPOLOGIES := None |}
      Sample.req_hdd.
Proof.
  apply (ValidateVolumeCapabilities_ignores_record Sample.accept_all
           Sample.ctrl
           {| volumes := {[ "A" := Sample.vol_D ]}; GRPC_TOPOLOGIES := None |}
           Sample.req_hdd).
  - exists Sample.vol_A. vm_compute. reflexivity.
  - exists Sample.vol_D. vm_compute. reflexivity.
Defined.

(** ** More on wire conversion *)

(** X10.  Converting a volume that has a source volume raises
    [AttributeError] for the attribute [source_vol_id]; so a result, when
    there is one, comes from a volume whose [source_volid] is [None] or
    empty, and it is tagged with the snapshot when [snapshot_id] is set and carries no
    content source otherwise: no result is ever tagged with a source
    volume. *)
Theorem convert_volume_type_never_volume_source (self : Controller)
    (vol : Volume) :
  (truthy_str (source_volid vol) = true →
   _convert_volume_type self vol = Raise (AttributeError "source_vol_id"))
  ∧ ∀ w, _convert_volume_type self vol = Return w →
      truthy_str (source_volid vol) = false
      ∧ content_source w
        = (if truthy_str (snapshot_id vol)
           then Some (SnapshotSource (default "" (snapshot_id vol)))
           else None)
      ∧ ∀ volume_id, content_source w ≠ Some (VolumeSource volume_id).
Proof.
  unfold _convert_volume_type. simpl.
  destruct (truthy_str (source_volid vol)); simpl.
  - split; [reflexivity|]. intros w H. discriminate H.
  - split; [discriminate|]. intros w [= <-]. simpl.
    split_and!; [reflexivity|reflexivity|]. intros volume_id.
    destruct (truthy_str (snapshot_id vol)); discriminate.
Qed.

(** X11.  A converted volume carries the topologies of the controller
    exactly when the controller has a non-empty list of them: with no list
    or an empty one the field is left out. *)
Theorem convert_volume_type_topology (self : Controller) (vol : Volume)
    (w : WireVolume) (topologies : list Topology) :
  _convert_volume_type self vol = Return w →
  accessible_topology w = Some topologies
  ↔ GRPC_TOPOLOGIES self = Some topologies ∧ topologies ≠ [].
Proof.
  intros Hw. apply convert_volume_type_fields in Hw as (_ & _ & _ & ->).
  destruct (GRPC_TOPOLOGIES self) as [[|t l]|]; simpl.
  - split; [discriminate|]. intros [[= <-] H]. done.
  - split; [intros [= <-]; done|]. intros [[= <-] _]. reflexivity.
  - split; [discriminate|]. intros [H _]. discriminate H.
Qed.

Lemma convert_volume_type_topology_witness :
  ∃ w, _convert_volume_type Sample2.ctrl_rack Sample.vol_A = Return w
       ∧ accessible_topology w = Some [ {| segments := {[ "rack" := "r1" ]} |} ].
Proof.
  destruct (_convert_volume_type Sample2.ctrl_rack Sample.vol_A)
    as [w|code details|e] eqn:Hw;
    [|vm_compute in Hw; discriminate Hw|vm_compute in Hw; discriminate Hw].
  exists w. split; [reflexivity|].
  apply (convert_volume_type_topology Sample2.ctrl_rack Sample.vol_A w _ Hw).
  split; [reflexivity|discriminate].
Defined.

(** X12.  A converted snapshot names the snapshot and its volume, is
    always ready to use, and its creation time splits the time shown into
    whole seconds and nanoseconds: the nanoseconds are a multiple of 1000
    from 0 up to 999,999,000, also for times before the epoch, and the two
    parts together give back the microseconds of the record.  The time
    zone of the record plays no part: its offset is dropped, not applied. *)
Theorem convert_snapshot_type_time (snap : Snapshot) :
  let w := _convert_snapshot_type snap in
  wire_snapshot_id w = snap_id snap
  ∧ source_volume_id w = snap_volume_id snap
  ∧ ready_to_use w = true
  ∧ 0 ≤ nanos (creation_time w) ≤ 999999000
  ∧ nanos (creation_time w) `mod` 1000 = 0
  ∧ seconds (creation_time w) * 1000000 + nanos (creation_time w) `div` 1000
    = wall_clock (created_at snap).
Proof.
  simpl. set (t := wall_clock (created_at snap)).
  pose proof (Z.mod_pos_bound t 1000000 ltac:(lia)) as Hbound.
  split_and!; try reflexivity.
  - lia.
  - lia.
  - apply Z.mod_mul. lia.
  - rewrite Z.div_mul by lia.
    pose proof (Z.div_mod t 1000000 ltac:(lia)). lia.
Qed.

(** ** More on node construction *)

(** X13.  The node-info response of a node repeats the node id it was
    built with, and carries the configured segments as its topology
    exactly when the configuration has a non-empty topology dictionary: an
    empty dictionary counts as none. *)
Theorem NodeGetInfo_topology (CONF : Config) (caps : list ServiceType)
    (node_id : option string) :
  let info := NodeGetInfo (Node_init CONF caps node_id).2 in
  info_node_id info = node_id
  ∧ info_accessible_topology info
    = match NODE_TOPOLOGY CONF with
      | Some d => if decide (d = ∅) then None else Some {| segments := d |}
      | None => None
      end.
Proof.
  unfold NodeGetInfo, Node_init, truthy_dict.
  destruct (NODE_TOPOLOGY CONF) as [d|]; simpl; [|done].
  destruct (decide (d = ∅)) as [Hd|Hd].
  - rewrite bool_decide_eq_true_2 by exact Hd. done.
  - rewrite bool_decide_eq_false_2 by exact Hd. done.
Qed.

(** ** Path components *)

Lemma append_snoc (acc rest : string) (c : ascii) :
  (acc +:+ String c "") +:+ rest = acc +:+ String c rest.
Proof.
  induction acc as [|a acc IH]; [reflexivity|].
  change (String a ((acc +:+ String c "") +:+ rest)
          = String a (acc +:+ String c rest)).
  f_equal. exact IH.
Qed.

Lemma basename_from_no_sep (name acc : string) :
  has_sep name = false → basename_from acc name = acc +:+ name.
Proof.
  revert acc. induction name as [|c name IH]; intros acc; simpl.
  - intros _. induction acc as [|a acc IHacc]; [reflexivity|].
    change (String a acc = String a (acc +:+ "")). f_equal. exact IHacc.
  - intros Hsep. apply orb_false_iff in Hsep as [Hc Hname].
    rewrite Hc, (IH _ Hname). apply append_snoc.
Qed.

Lemma basename_from_dir (dir name acc : string) :
  has_sep name = false →
  basename_from acc (dir +:+ "/" +:+ name) = name.
Proof.
  intros Hname. revert acc. induction dir as [|c dir IH]; intros acc; simpl.
  - exact (basename_from_no_sep name "" Hname).
  - destruct (Ascii.eqb c "/"); apply IH.
Qed.

Lemma endswith_sep_no_sep (name : string) :
  has_sep name = false → endswith_sep name = false.
Proof.
  induction name as [|c name IH]; [reflexivity|]. simpl.
  intros Hsep. apply orb_false_iff in Hsep as [Hc Hname].
  destruct name; [exact Hc|exact (IH Hname)].
Qed.

Lemma endswith_sep_app (p name : string) :
  name ≠ "" → endswith_sep (p +:+ name) = endswith_sep name.
Proof.
  intros Hname. induction p as [|c p IH]; [reflexivity|].
  simpl. destruct (p +:+ name) as [|c' rest] eqn:Happ; [|exact IH].
  destruct p; simpl in Happ; [contradiction|discriminate Happ].
Qed.

Lemma startswith_sep_no_sep (name : string) :
  has_sep name = false → startswith_sep name = false.
Proof.
  destruct name as [|c name]; [reflexivity|]. simpl.
  intros Hsep. by apply orb_false_iff in Hsep as [Hc _].
Qed.

Lemma append_assoc (a b c : string) : (a +:+ b) +:+ c = a +:+ b +:+ c.
Proof.
  induction a as [|x a IH]; [reflexivity|].
  change (String x ((a +:+ b) +:+ c) = String x (a +:+ b +:+ c)).
  f_equal. exact IH.
Qed.

(** Joining a relative component to a path that does not end in a slash
    puts one slash between them. *)
Lemma path_join_plain (path b : string) :
  startswith_sep b = false →
  path ≠ "" →
  endswith_sep path = false →
  path_join path b = path +:+ "/" +:+ b.
Proof.
  intros Hb Hpath Hend. unfold path_join. rewrite Hb, Hend.
  apply String.eqb_neq in Hpath. rewrite Hpath. reflexivity.
Qed.

(** The size attribute is looked up by the last component of the device
    path alone. *)
Lemma size_attribute_last_component (dir name : string) :
  has_sep name = false →
  size_attribute (dir +:+ "/" +:+ name)
  = if String.eqb name "" then "/sys/class/block/size"
    else "/sys/class/block/" +:+ name +:+ "/size".
Proof.
  intros Hname. unfold size_attribute, basename.
  rewrite (basename_from_dir dir name "" Hname).
  destruct (String.eqb_spec name "") as [->|Hne]; [reflexivity|].
  rewrite (path_join_plain "/sys/class/block" name);
    [|exact (startswith_sep_no_sep _ Hname)|discriminate|reflexivity].
  rewrite path_join_plain; [|reflexivity|discriminate|].
  - rewrite !append_assoc. reflexivity.
  - rewrite (endswith_sep_app "/sys/class/block" ("/" +:+ name)) by discriminate.
    rewrite (endswith_sep_app "/" name Hne).
    exact (endswith_sep_no_sep _ Hname).
Qed.

(** ** More on volume statistics *)

Section StatsCases.

Variable host : Host.
Variable _get_device : string -> option string.
Variable _get_vol_device : string -> option string * option string.
Variable py_int : string -> option Z.
Variable request : StatsRequest.

(** The ways through the checks of the handler. *)
Lemma stats_cases :
  (∃ exc, os_stat host (volume_path request) = inl exc)
  ∨ (∃ st_mode,
       os_stat host (volume_path request) = inr st_mode
       ∧ (truthy_str (_get_vol_device (stats_volume_id request)).1 = false
          ∨ _get_device (volume_path request)
            ≠ (_get_vol_device (stats_volume_id request)).2))
  ∨ (∃ st_mode device_for_vol,
       checks_pass host _get_device _get_vol_device request st_mode
         device_for_vol).
Proof.
  destruct (os_stat host (volume_path request)) as [exc|st_mode] eqn:Hstat;
    [left; eauto|right].
  destruct (_get_vol_device (stats_volume_id request))
    as [device_for_vol private_bind] eqn:Hvol.
  destruct (truthy_str device_for_vol) eqn:Hdev.
  - destruct (decide (_get_device (volume_path request) = private_bind))
      as [Heq|Hne].
    + right. destruct device_for_vol as [d|]; [|discriminate Hdev].
      exists st_mode, d. unfold checks_pass. rewrite Hstat, Hvol, Heq.
      split_and!; try reflexivity.
      simpl in Hdev. apply negb_true_iff, String.eqb_neq in Hdev. exact Hdev.
    + left. exists st_mode. split; [reflexivity|]. right. exact Hne.
  - left. exists st_mode. split; [reflexivity|]. left. exact Hdev.
Qed.

(** When [os.stat] raises, the handler has no response: [OSError] becomes
    an abort, anything else leaves the handler as it is. *)
Lemma stats_stat_raises (exc : PyExc) :
  os_stat host (volume_path request) = inl exc →
  NodeGetVolumeStats host _get_device _get_vol_device py_int request
  = match exc with
    | OSError =>
        Abort NOT_FOUND ("Cannot access path " +:+ volume_path request)
    | _ => Raise exc
    end.
Proof.
  unfold NodeGetVolumeStats. intros ->. destruct exc; reflexivity.
Qed.

End StatsCases.

(** A path with a null character in it: the [ValueError] of [os.stat] is
    not an [OSError] and is not caught. *)
Lemma stats_null_character (request : StatsRequest) :
  NodeGetVolumeStats Sample2.host_nul Sample.get_device Sample.get_vol_device
    Sample.sample_int request
  = Raise ValueError.
Proof.
  exact (stats_stat_raises Sample2.host_nul Sample.get_device
           Sample.get_vol_device Sample.sample_int request ValueError eq_refl).
Qed.

(** X15.  A response of NodeGetVolumeStats is only ever given for a
    request that passed the path and device checks and whose measurement
    could be read: the filesystem statistics for a directory; for any
    other path the size attribute of the device, holding an integer. *)
Theorem NodeGetVolumeStats_response_only_if (host : Host)
    (_get_device : string -> option string)
    (_get_vol_device : string -> option string * option string)
    (py_int : string -> option Z) (request : StatsRequest)
    (response : VolumeStatsResp) :
  NodeGetVolumeStats host _get_device _get_vol_device py_int request
  = Return response →
  ∃ st_mode device_for_vol,
    checks_pass host _get_device _get_vol_device request st_mode
      device_for_vol
    ∧ if S_ISDIR st_mode
      then is_Some (os_statvfs host (volume_path request))
      else ∃ text, read_file host (size_attribute device_for_vol) = Some text
                   ∧ is_Some (py_int text).
Proof.
  intros Hret.
  destruct (stats_cases host _get_device _get_vol_device request)
    as [[exc Hstat]|[(st_mode & Hstat & Hcheck)|(st_mode & dev & Hchecks)]].
  - rewrite (stats_stat_raises _ _ _ _ _ _ Hstat) in Hret.
    destruct exc; discriminate Hret.
  - rewrite (stats_wrong_volume _ _ _ _ _ _ Hstat Hcheck) in Hret.
    discriminate Hret.
  - exists st_mode, dev. split; [exact Hchecks|].
    rewrite (stats_after_checks _ _ _ _ _ _ _ Hchecks) in Hret.
    unfold size_attribute.
    destruct (S_ISDIR st_mode).
    + destruct (os_statvfs host (volume_path request)); [eauto|discriminate Hret].
    + destruct (read_file host _) as [text|]; [|discriminate Hret].
      exists text. split; [reflexivity|].
      simpl in Hret. destruct (py_int text); [eauto|discriminate Hret].
Qed.

Lemma NodeGetVolumeStats_response_only_if_witness :
  ∃ st_mode device_for_vol,
    checks_pass Sample.host Sample.get_device Sample.get_vol_device
      {| stats_volume_id := "vol-2"; volume_path := "/mnt/raw" |}
      st_mode device_for_vol
    ∧ if S_ISDIR st_mode
      then is_Some (os_statvfs Sample.host "/mnt/raw")
      else ∃ text, read_file Sample.host (size_attribute device_for_vol)
                   = Some text
                   ∧ is_Some (Sample.sample_int text).
Proof.
  apply (NodeGetVolumeStats_response_only_if Sample.host Sample.get_device
           Sample.get_vol_device Sample.sample_int
           {| stats_volume_id := "vol-2"; volume_path := "/mnt/raw" |}
           {| usage := [ {| unit := BYTES; total := 1073741824;
                            used := None; available := None |} ] |}).
  vm_compute. reflexivity.
Defined.

(** X17.  Past the path and device checks nothing is caught: statistics
    that cannot be read for a directory leave the handler as [OSError],
    and a size attribute that does not hold an integer leaves it as
    [ValueError]. *)
Theorem NodeGetVolumeStats_uncaught (host : Host)
    (_get_device : string -> option string)
    (_get_vol_device : string -> option string * option string)
    (py_int : string -> option Z) (request : StatsRequest)
    (st_mode : Z) (device_for_vol : string) :
  checks_pass host _get_device _get_vol_device request st_mode device_for_vol →
  let result :=
    NodeGetVolumeStats host _get_device _get_vol_device py_int request in
  (S_ISDIR st_mode = true →
   os_statvfs host (volume_path request) = None →
   result = Raise OSError)
  ∧ (S_ISDIR st_mode = false →
     ∀ text, read_file host (size_attribute device_for_vol) = Some text →
             py_int text = None →
             result = Raise ValueError).
Proof.
  intros Hchecks result. subst result.
  rewrite (stats_after_checks _ _ _ _ _ _ _ Hchecks). split.
  - intros -> ->. reflexivity.
  - intros -> text Hread Hint. unfold size_attribute in Hread.
    rewrite Hread. simpl. rewrite Hint. reflexivity.
Qed.

Lemma NodeGetVolumeStats_uncaught_witness :
  NodeGetVolumeStats Sample2.host_broken Sample.get_device
    Sample.get_vol_device Sample.sample_int
    {| stats_volume_id := "vol-1"; volume_path := "/mnt/data" |}
  = Raise OSError
  ∧ NodeGetVolumeStats Sample2.host_broken Sample.get_device
      Sample.get_vol_device Sample.sample_int
      {| stats_volume_id := "vol-2"; volume_path := "/mnt/raw" |}
    = Raise ValueError.
Proof.
  split.
  - refine (proj1 (NodeGetVolumeStats_uncaught Sample2.host_broken
              Sample.get_device Sample.get_vol_device Sample.sample_int
              {| stats_volume_id := "vol-1"; volume_path := "/mnt/data" |}
              0x41ED "/dev/sda" _) _ _).
    + split_and!; [reflexivity| |reflexivity]. intros H. discriminate H.
    + reflexivity.
    + reflexivity.
  - refine (proj2 (NodeGetVolumeStats_uncaught Sample2.host_broken
              Sample.get_device Sample.get_vol_device Sample.sample_int
              {| stats_volume_id := "vol-2"; volume_path := "/mnt/raw" |}
              0x61B0 "/dev/sdb" _) _ "unknown" _ _).
    + split_and!; [reflexivity| |reflexivity]. intros H. discriminate H.
    + reflexivity.
    + reflexivity.
    + vm_compute. reflexivity.
Defined.

(** X18.  For a directory the block subsystem is never consulted: hosts
    that agree on the stat of the path and on its filesystem statistics
    give the same outcome, whatever their size attributes hold and
    however integers are read. *)
Theorem NodeGetVolumeStats_directory_ignores_sysfs (host other : Host)
    (_get_device : string -> option string)
    (_get_vol_device : string -> option string * option string)
    (py_int py_int' : string -> option Z) (request : StatsRequest)
    (st_mode : Z) :
  os_stat host (volume_path request) = inr st_mode →
  S_ISDIR st_mode = true →
  os_stat other (volume_path request) = inr st_mode →
  os_statvfs other (volume_path request)
  = os_statvfs host (volume_path request) →
  NodeGetVolumeStats other _get_device _get_vol_device py_int' request
  = NodeGetVolumeStats host _get_device _get_vol_device py_int request.
Proof.
  intros Hstat Hdir Hstat' Hvfs. unfold NodeGetVolumeStats.
  rewrite Hstat, Hstat', Hvfs. simpl.
  destruct (_get_vol_device (stats_volume_id request)) as [dev bind].
  destruct (_ || _); [reflexivity|]. rewrite Hdir. reflexivity.
Qed.

Lemma NodeGetVolumeStats_directory_ignores_sysfs_witness :
  NodeGetVolumeStats
    {| os_stat := os_stat Sample.host; os_statvfs := os_statvfs Sample.host;
       read_file := fun _ => None |}
    Sample.get_device Sample.get_vol_device (fun _ => None)
    {| stats_volume_id := "vol-1"; volume_path := "/mnt/data" |}
  = NodeGetVolumeStats Sample.host Sample.get_device Sample.get_vol_device
      Sample.sample_int
      {| stats_volume_id := "vol-1"; volume_path := "/mnt/data" |}.
Proof.
  apply (NodeGetVolumeStats_directory_ignores_sysfs Sample.host
           {| os_stat := os_stat Sample.host;
              os_statvfs := os_statvfs Sample.host;
              read_file := fun _ => None |}
           Sample.get_device Sample.get_vol_device Sample.sample_int
           (fun _ => None)
           {| stats_volume_id := "vol-1"; volume_path := "/mnt/data" |} 0x41ED);
    reflexivity.
Defined.

(** X19.  For a raw volume the size is read by the last component of the
    device path alone: for a device [dir/name], with a non-empty [name]
    free of slashes, the file read is [/sys/class/block/name/size], and
    the total reported is 512 times the integer it holds. *)
Theorem NodeGetVolumeStats_block_device_name (host : Host)
    (_get_device : string -> option string)
    (_get_vol_device : string -> option string * option string)
    (py_int : string -> option Z) (request : StatsRequest)
    (st_mode : Z) (dir name text : string) (blocks : Z) :
  checks_pass host _get_device _get_vol_device request st_mode
    (dir +:+ "/" +:+ name) →
  S_ISDIR st_mode = false →
  has_sep name = false →
  name ≠ "" →
  read_file host ("/sys/class/block/" +:+ name +:+ "/size") = Some text →
  py_int text = Some blocks →
  NodeGetVolumeStats host _get_device _get_vol_device py_int request
  = Return {| usage := [ {| unit := BYTES; total := 512 * blocks;
                            used := None; available := None |} ] |}.
Proof.
  intros Hchecks Hdir Hname Hne Hread Hint.
  apply (stats_block _ _ _ _ _ _ _ text _ Hchecks Hdir); [|exact Hint].
  pose proof (size_attribute_last_component dir name Hname) as Hattr.
  apply String.eqb_neq in Hne. rewrite Hne in Hattr.
  unfold size_attribute in Hattr. rewrite Hattr. exact Hread.
Qed.

Lemma NodeGetVolumeStats_block_device_name_witness :
  NodeGetVolumeStats Sample.host Sample.get_device Sample.get_vol_device
    Sample.sample_int {| stats_volume_id := "vol-2"; volume_path := "/mnt/raw" |}
  = Return {| usage := [ {| unit := BYTES; total := 512 * 2097152;
                            used := None; available := None |} ] |}.
Proof.
  apply (NodeGetVolumeStats_block_device_name Sample.host Sample.get_device
           Sample.get_vol_device Sample.sample_int
           {| stats_volume_id := "vol-2"; volume_path := "/mnt/raw" |}
           0x61B0 "/dev" "sdb" ("2097152" +:+ String "010"%char "") 2097152).
  - split_and!; [reflexivity| |reflexivity]. intros H. discriminate H.
  - reflexivity.
  - reflexivity.
  - intros H. discriminate H.
  - reflexivity.
  - vm_compute. reflexivity.
Defined.
